(** * text2video: pipeline cache, generation engine, recorder and prompt
      sanitiser

    A shallow embedding of [src/text2video/engine.py] and
    [src/text2video/storage.py].  Python code that calls into torch,
    diffusers, dfloat11, the logger and the database is modelled as a
    computation over an explicit host: every external call is a function on
    an abstract world that either returns or raises, and every call the code
    makes is appended to an event list, so that "invoked once", "not
    reloaded" and "logged" are statements about that list. *)

From Stdlib Require Import List String Ascii ZArith QArith Bool Lia.
Import ListNotations.
Local Close Scope Q_scope.
Local Open Scope string_scope.
Local Open Scope list_scope.

(* ===================================================================== *)
(** ** Python values, exceptions and effects                              *)
(* ===================================================================== *)

Module Py.

(** A raised Python exception.  [except Exception] catches the instances
    of [Exception] only; [KeyboardInterrupt], [SystemExit] and
    [GeneratorExit] derive from [BaseException] directly and pass through
    such a handler. *)
Inductive py_exc : Type :=
| Exc (cls msg : string)
| BaseExc (cls msg : string).

Definition isinstance_Exception (e : py_exc) : bool :=
  match e with
  | Exc _ _ => true
  | BaseExc _ _ => false
  end.

(** [str(e)], as interpolated by [f"...{e}"]. *)
Definition str_of_exc (e : py_exc) : string :=
  match e with
  | Exc _ msg => msg
  | BaseExc _ msg => msg
  end.

(** What a call does: return a value or raise. *)
Inductive outcome (A : Type) : Type :=
| Ret (a : A)
| Raise (e : py_exc).
Arguments Ret {A} a.
Arguments Raise {A} e.

Definition raised {A} (r : outcome A) : option py_exc :=
  match r with
  | Ret _ => None
  | Raise e => Some e
  end.

Inductive level : Type := Info | Warning | Error.

(** One entry per call that leaves the module: which call, and the
    exception it raised if it did; or a line handed to the logger. *)
Inductive event (api : Type) : Type :=
| Called (c : api) (exn : option py_exc)
| Logged (lvl : level) (msg : string).
Arguments Called {api} c exn.
Arguments Logged {api} lvl msg.

Section Monad.
Context {St api : Type}.

(** The result of running a piece of code from a state: its outcome, the
    state it leaves (kept when it raises: Python does not roll back) and
    the calls it made, oldest first. *)
Record run (A : Type) : Type :=
  Run { res : outcome A; st : St; evs : list (event api) }.
Arguments Run {A} res st evs.
Arguments res {A} r.
Arguments st {A} r.
Arguments evs {A} r.

Definition M (A : Type) : Type := St -> run A.

Definition ret {A} (a : A) : M A := fun s => Run (Ret a) s [].

Definition raise {A} (e : py_exc) : M A := fun s => Run (Raise e) s [].

Definition bind {A B} (m : M A) (k : A -> M B) : M B :=
  fun s =>
    match m s with
    | Run (Ret a) s1 l1 =>
        match k a s1 with
        | Run r s2 l2 => Run r s2 (l1 ++ l2)
        end
    | Run (Raise e) s1 l1 => Run (Raise e) s1 l1
    end.

Definition get : M St := fun s => Run (Ret s) s [].

Definition put (s' : St) : M unit := fun _ => Run (Ret tt) s' [].

Definition emit (e : event api) : M unit := fun s => Run (Ret tt) s [e].

(** [logger.info], [logger.warning], [logger.error]. *)
Definition log (lvl : level) (msg : string) : M unit :=
  emit (Logged lvl msg).

(** [try: body  except Exception as e: handler e]. *)
Definition try_except_Exception {A} (body : M A) (handler : py_exc -> M A)
  : M A :=
  fun s =>
    match body s with
    | Run (Ret a) s1 l1 => Run (Ret a) s1 l1
    | Run (Raise e) s1 l1 =>
        if isinstance_Exception e then
          match handler e s1 with
          | Run r s2 l2 => Run r s2 (l1 ++ l2)
          end
        else Run (Raise e) s1 l1
    end.

(** [try: body  finally: fin].  The [finally] suite runs on every way
    out of [body]; an exception raised by [fin] replaces the pending
    outcome. *)
Definition try_finally {A} (body : M A) (fin : M unit) : M A :=
  fun s =>
    match body s with
    | Run r s1 l1 =>
        match fin s1 with
        | Run (Ret _) s2 l2 => Run r s2 (l1 ++ l2)
        | Run (Raise e) s2 l2 => Run (Raise e) s2 (l1 ++ l2)
        end
    end.

End Monad.

Arguments Run {St api A} res st evs.
Arguments res {St api A} r.
Arguments st {St api A} r.
Arguments evs {St api A} r.

Declare Scope py_scope.
Delimit Scope py_scope with py.
Notation "x <- m ;; k" := (bind m (fun x => k))
  (at level 61, m at next level, right associativity) : py_scope.
Notation "m ;; k" := (bind m (fun _ => k))
  (at level 61, right associativity) : py_scope.

Definition level_eqb (a b : level) : bool :=
  match a, b with
  | Info, Info | Warning, Warning | Error, Error => true
  | _, _ => false
  end.

Definition is_call {api} (p : api -> bool) (e : event api) : bool :=
  match e with
  | Called c _ => p c
  | Logged _ _ => false
  end.

Definition is_logged {api} (lvl : level) (e : event api) : bool :=
  match e with
  | Called _ _ => false
  | Logged l _ => level_eqb l lvl
  end.

(** How many entries of an event list are calls satisfying [p]. *)
Definition count_calls {api} (p : api -> bool) (l : list (event api)) : nat :=
  List.length (filter (is_call p) l).

(** How many entries are lines logged at level [lvl]. *)
Definition count_logged {api} (lvl : level) (l : list (event api)) : nat :=
  List.length (filter (is_logged (api := api) lvl) l).

End Py.

Import Py.
Local Open Scope py_scope.

(* ===================================================================== *)
(** ** engine.py                                                          *)
(* ===================================================================== *)

Module Engine.

(** Object identity of a loaded Python object (what [is] compares). *)
Definition ref : Type := nat.

(** The two sub-modules of the pipeline that receive DFloat11 weights. *)
Inductive submodule : Type := transformer | transformer_2.

Inductive backend : Type := mps | cuda.

(** The keyword arguments of [pipe(...)] in [generate_video]. *)
Record GenArgs : Type := {
  prompt : string;
  negative_prompt : string;
  height : Z;
  width : Z;
  num_frames : Z;
  guidance_scale : Q;
  guidance_scale_2 : Q;
  num_inference_steps : Z
}.

(** The calls [engine.py] makes outside itself. *)
Inductive api : Type :=
| time_time
| detect_device
| AutoencoderKLWan_from_pretrained (path subfolder : string)
| WanPipeline_from_pretrained (path : string) (vae : ref)
| DFloat11Model_from_pretrained (path : string) (m : submodule) (pipe : ref)
| enable_model_cpu_offload (pipe : ref)
| inference_mode_enter
| inference_mode_exit
| pipe_call (pipe : ref) (args : GenArgs)
| gc_collect
| is_available (b : backend) (answer : bool)
| empty_cache (b : backend).

(** The host the engine runs on: torch, diffusers, dfloat11 and the
    hardware module, none of which is part of the engine.  A fallible call
    maps the world to an outcome and a new world. *)
Record Host : Type := {
  World : Type;
  Frames : Type;
  repr : string -> string;
  host_detect_device : World -> outcome string * World;
  host_vae_from_pretrained :
    string -> string -> World -> outcome ref * World;
  host_pipe_from_pretrained :
    string -> ref -> World -> outcome ref * World;
  host_dfloat11_from_pretrained :
    string -> submodule -> ref -> World -> outcome unit * World;
  host_enable_model_cpu_offload : ref -> World -> outcome unit * World;
  host_pipe_call : ref -> GenArgs -> World -> outcome (list Frames) * World;
  host_is_available : backend -> World -> bool;
  host_gc_collect : World -> World;
  host_empty_cache : backend -> World -> World
}.

Section WithHost.
Context (H : Host).

(** The module's state: the world outside and the global
    [_cached_pipe] ([None] until a load has completed). *)
Record State : Type := {
  world : World H;
  _cached_pipe : option ref
}.

Definition E (A : Type) : Type := M (St := State) (api := api) A.

(** A fallible call into the host, recorded with its outcome. *)
Definition call {A} (c : api) (op : World H -> outcome A * World H) : E A :=
  fun s =>
    let (r, w) := op (world s) in
    Run r {| world := w; _cached_pipe := _cached_pipe s |}
        [Called c (raised r)].

(** A call into the host that only has an effect. *)
Definition effect (c : api) (op : World H -> World H) : E unit :=
  fun s =>
    Run (Ret tt)
        {| world := op (world s); _cached_pipe := _cached_pipe s |}
        [Called c None].

(** [torch.backends.mps.is_available()], [torch.cuda.is_available()]. *)
Definition probe (b : backend) : E bool :=
  fun s =>
    let a := host_is_available H b (world s) in
    Run (Ret a) s [Called (is_available b a) None].

Definition log_info (message : string) : E unit := log Info message.

Definition log_warn (message : string) : E unit := log Warning message.

Definition wan_path : string := "/home/model/Wan-AI/Wan2.2-T2V-A14B-Diffusers".

Definition df11_path : string := "/home/model/DFloat11/Wan2.2-T2V-A14B-DF11".

Definition df11_path_2 : string :=
  "/home/model/DFloat11/Wan2.2-T2V-A14B-2-DF11".

(** Lines 77-111 of [load_pipeline]: what runs when the slot is empty.
    The assignment to [_cached_pipe] is the last statement but one. *)
Definition load_sequence (device : option string) : E ref :=
  device <- match device with
            | None => call detect_device (host_detect_device H)
            | Some d => ret d
            end ;;
  log_info ("using device: " ++ device) ;;
  log_info "using model: DFloat11" ;;
  vae <- call (AutoencoderKLWan_from_pretrained wan_path "vae")
              (host_vae_from_pretrained H wan_path "vae") ;;
  pipe <- call (WanPipeline_from_pretrained wan_path vae)
               (host_pipe_from_pretrained H wan_path vae) ;;
  call (DFloat11Model_from_pretrained df11_path transformer pipe)
       (host_dfloat11_from_pretrained H df11_path transformer pipe) ;;
  call (DFloat11Model_from_pretrained df11_path_2 transformer_2 pipe)
       (host_dfloat11_from_pretrained H df11_path_2 transformer_2 pipe) ;;
  call (enable_model_cpu_offload pipe)
       (host_enable_model_cpu_offload H pipe) ;;
  log_info "model loading first time" ;;
  s <- get ;;
  put {| world := world s; _cached_pipe := Some pipe |} ;;
  ret pipe.

Definition load_pipeline (device : option string) : E ref :=
  s <- get ;;
  match _cached_pipe s with
  | Some p => log_info "using model exists" ;; ret p
  | None => load_sequence device
  end.

Definition negative_prompt_text : string :=
  "色调艳丽，过曝，静态，细节模糊不清，字幕，风格，作品，画作，画面，静止，整体发灰，最差质量，低质量，JPEG压缩残留，丑陋的，残缺的，多余的手指，画得不好的手部，画得不好的脸部，畸形的，毁容的，形态畸形的肢体，手指融合，静止不动的画面，杂乱的背景，三条腿，背景人很多，倒着走".

Definition gen_args (prompt : string) : GenArgs :=
  {| prompt := prompt;
     negative_prompt := negative_prompt_text;
     height := 1280;
     width := 720;
     num_frames := 150;
     guidance_scale := (4 # 1)%Q;
     guidance_scale_2 := (3 # 1)%Q;
     num_inference_steps := 30 |}.

(** [xs[0]]. *)
Definition index0 {A} (xs : list A) : E A :=
  match xs with
  | x :: _ => ret x
  | [] => raise (Exc "IndexError" "list index out of range")
  end.

(** [with torch.inference_mode(): body]: the mode is left on every way
    out of [body]. *)
Definition with_inference_mode {A} (body : E A) : E A :=
  emit (Called inference_mode_enter None) ;;
  try_finally body (emit (Called inference_mode_exit None)).

(** The [try] suite of [generate_video]; its value is what it binds to
    the local [video]. *)
Definition try_suite (prompt : string) : E (Frames H) :=
  emit (Called time_time None) ;;
  pipe <- load_pipeline None ;;
  log_info ("generating video for prompt: " ++ repr H prompt) ;;
  with_inference_mode
    (frames <- call (pipe_call pipe (gen_args prompt))
                    (host_pipe_call H pipe (gen_args prompt)) ;;
     index0 frames).

(** The [except Exception as e] suite: it logs and binds nothing. *)
Definition except_suite (e : py_exc) : E unit :=
  log Error ("Error generating video: " ++ str_of_exc e).

(** The [finally] suite. *)
Definition finally_suite : E unit :=
  effect gc_collect (host_gc_collect H) ;;
  on_mps <- probe mps ;;
  (if on_mps then effect (empty_cache mps) (host_empty_cache H mps)
   else ret tt) ;;
  on_cuda <- probe cuda ;;
  if on_cuda then
    log_warn "Clearing CUDA cache after error" ;;
    effect (empty_cache cuda) (host_empty_cache H cuda)
  else ret tt.

(** What the reclamation pass calls on a host whose world is [w] when the
    pass starts: the collector, then for each accelerator backend the probe
    and, when it answers yes, the flush. *)
Definition reclaim_pass (w : World H) : list (event api) :=
  let w1 := host_gc_collect H w in
  let on_mps := host_is_available H mps w1 in
  let w2 := if on_mps then host_empty_cache H mps w1 else w1 in
  let on_cuda := host_is_available H cuda w2 in
  [Called gc_collect None; Called (is_available mps on_mps) None]
  ++ (if on_mps then [Called (empty_cache mps) None] else [])
  ++ [Called (is_available cuda on_cuda) None]
  ++ (if on_cuda then [Called (empty_cache cuda) None] else []).

(** The [try] statement without its [finally]: the value is the binding
    of the local [video], [Some v] once the [try] suite has assigned it
    and [None] while it is unbound (the handler assigns nothing). *)
Definition guarded_suite (prompt : string) : E (option (Frames H)) :=
  try_except_Exception
    (v <- try_suite prompt ;; ret (Some v))
    (fun e => except_suite e ;; ret None).

(** [generate_video].  [return video] on an unbound local raises
    [UnboundLocalError].  The value returned to the caller is a Python
    value: [Some v] for frames, [None] for Python's [None]. *)
Definition generate_video (prompt : string) : E (option (Frames H)) :=
  video <- try_finally (guarded_suite prompt) finally_suite ;;
  match video with
  | Some v => ret (Some v)
  | None =>
      raise (Exc "UnboundLocalError"
                 "local variable 'video' referenced before assignment")
  end.

(** [cleanup_memory]. *)
Definition cleanup_memory : E unit :=
  effect gc_collect (host_gc_collect H) ;;
  on_mps <- probe mps ;;
  (if on_mps then effect (empty_cache mps) (host_empty_cache H mps)
   else ret tt) ;;
  on_cuda <- probe cuda ;;
  if on_cuda then effect (empty_cache cuda) (host_empty_cache H cuda)
  else ret tt.

(** The module as imported: [_cached_pipe = None]. *)
Definition initial (w : World H) : State :=
  {| world := w; _cached_pipe := None |}.

(** Successive calls of [load_pipeline] by a caller that survives the
    ones that raise: the outcomes in order, the state left and every
    call made. *)
Fixpoint load_pipeline_calls (devices : list (option string)) (s : State)
  : list (outcome ref) * State * list (event api) :=
  match devices with
  | [] => ([], s, [])
  | d :: rest =>
      let r := load_pipeline d s in
      let '(outs, s', l) := load_pipeline_calls rest (st r) in
      (res r :: outs, s', evs r ++ l)
  end.

End WithHost.

Arguments world {H} s.
Arguments _cached_pipe {H} s.

Definition is_load_step (c : api) : bool :=
  match c with
  | AutoencoderKLWan_from_pretrained _ _
  | WanPipeline_from_pretrained _ _
  | DFloat11Model_from_pretrained _ _ _
  | enable_model_cpu_offload _ => true
  | _ => false
  end.

Definition is_detect_device (c : api) : bool :=
  match c with detect_device => true | _ => false end.

Definition is_vae_load (c : api) : bool :=
  match c with AutoencoderKLWan_from_pretrained _ _ => true | _ => false end.

Definition is_pipe_load (c : api) : bool :=
  match c with WanPipeline_from_pretrained _ _ => true | _ => false end.

Definition is_df11_load (c : api) : bool :=
  match c with DFloat11Model_from_pretrained _ _ _ => true | _ => false end.

Definition is_offload (c : api) : bool :=
  match c with enable_model_cpu_offload _ => true | _ => false end.

Definition is_pipe_call (c : api) : bool :=
  match c with pipe_call _ _ => true | _ => false end.

Definition is_inference_enter (c : api) : bool :=
  match c with inference_mode_enter => true | _ => false end.

Definition is_inference_exit (c : api) : bool :=
  match c with inference_mode_exit => true | _ => false end.

Definition is_gc_collect (c : api) : bool :=
  match c with gc_collect => true | _ => false end.

Definition backend_eqb (a b : backend) : bool :=
  match a, b with
  | mps, mps | cuda, cuda => true
  | _, _ => false
  end.

Definition is_empty_cache (b : backend) (c : api) : bool :=
  match c with empty_cache b' => backend_eqb b' b | _ => false end.

(** The calls of the memory reclamation pass. *)
Definition is_reclaim (c : api) : bool :=
  match c with
  | gc_collect | is_available _ _ | empty_cache _ => true
  | _ => false
  end.

End Engine.

(* ===================================================================== *)
(** ** storage.py                                                         *)
(* ===================================================================== *)

Module Storage.

(** A Python [str] where single characters matter: its code points. *)
Definition str : Type := list N.

(** The code points of an ASCII literal. *)
Fixpoint lit (s : string) : str :=
  match s with
  | EmptyString => []
  | String a rest => N_of_ascii a :: lit rest
  end.

(** [s[:stop]] for an [int] [stop]: a negative [stop] counts from the
    end, and both ends are clamped to the string. *)
Definition slice_to {A} (s : list A) (stop : Z) : list A :=
  if (0 <=? stop)%Z then firstn (Z.to_nat stop) s
  else firstn (Z.to_nat (Z.of_nat (List.length s) + stop)) s.

(** [c in t] for a one-character [c]. *)
Definition char_in (c : N) (t : str) : bool := existsb (N.eqb c) t.

Section Unicode.
(** [str.isalnum] on one character: a table of the Unicode database,
    which is not part of the program. *)
Variable isalnum : N -> bool.

Definition keeps (c : N) : bool := isalnum c || char_in c (lit "-_").

(** [sanitize_prompt(prompt, max_len)]; [max_len] defaults to 30. *)
Definition sanitize_prompt (prompt : str) (max_len : Z) : str :=
  let safe := filter keeps (slice_to prompt max_len) in
  match safe with
  | [] => lit "image"
  | _ :: _ => safe
  end.

Definition sanitize_prompt_default (prompt : str) : str :=
  sanitize_prompt prompt 30.
End Unicode.

Definition ALLOWED_EXTENSIONS : list string := ["png"; "jpg"; "jpeg"; "webp"].

(** The keyword arguments [record_generation] hands to
    [db.add_generation]. *)
Record AddGeneration (Lora : Type) : Type := {
  prompt : string;
  steps : Z;
  width : Z;
  height : Z;
  filename : string;
  generation_time : Q;
  file_size_kb : Q;
  model : string;
  cfg_scale : Q;
  seed : option Z;
  status : string;
  precision : string;
  loras : option (list Lora)
}.
Arguments prompt {Lora} _.
Arguments steps {Lora} _.
Arguments width {Lora} _.
Arguments height {Lora} _.
Arguments filename {Lora} _.
Arguments generation_time {Lora} _.
Arguments file_size_kb {Lora} _.
Arguments model {Lora} _.
Arguments cfg_scale {Lora} _.
Arguments seed {Lora} _.
Arguments status {Lora} _.
Arguments precision {Lora} _.
Arguments loras {Lora} _.

(** The database module [db], which is not part of [storage.py]. *)
Record Db : Type := {
  DbWorld : Type;
  Lora : Type;
  db_add_generation :
    AddGeneration Lora -> DbWorld -> outcome Z * DbWorld
}.

Inductive api (D : Db) : Type :=
| add_generation (kw : AddGeneration (Lora D)).
Arguments add_generation {D} kw.

Section WithDb.
Context (D : Db).

Definition DbM (A : Type) : Type := M (St := DbWorld D) (api := api D) A.

Definition call_add_generation (kw : AddGeneration (Lora D)) : DbM Z :=
  fun w =>
    let (r, w') := db_add_generation D kw w in
    Run r w' [Called (add_generation kw) (raised r)].

(** The keyword arguments of the [db.add_generation(...)] call in
    [record_generation]: its own parameters under their names, and the
    literal ["succeeded"] as [status]. *)
Definition add_generation_kwargs
    (prompt : string) (steps width height : Z) (filename : string)
    (generation_time file_size_kb : Q) (model precision : string)
    (seed : option Z) (cfg_scale : Q) (loras : option (list (Lora D)))
  : AddGeneration (Lora D) :=
  {| prompt := prompt;
     steps := steps;
     width := width;
     height := height;
     filename := filename;
     generation_time := generation_time;
     file_size_kb := file_size_kb;
     model := model;
     cfg_scale := cfg_scale;
     seed := seed;
     status := "succeeded";
     precision := precision;
     loras := loras |}.

(** [record_generation]; the value returned is the new record id or
    Python's [None].  [cfg_scale] defaults to [0.0] and [loras] to
    [None] at the call site. *)
Definition record_generation
    (prompt : string) (steps width height : Z) (filename : string)
    (generation_time file_size_kb : Q) (model precision : string)
    (seed : option Z) (cfg_scale : Q) (loras : option (list (Lora D)))
  : DbM (option Z) :=
  try_except_Exception
    (id <- call_add_generation
             (add_generation_kwargs prompt steps width height filename
                generation_time file_size_kb model precision seed cfg_scale
                loras) ;;
     ret (Some id))
    (fun e =>
       log Error ("Failed to record generation to DB: " ++ str_of_exc e) ;;
       ret None).

End WithDb.

End Storage.

(* ===================================================================== *)
(** ** hardware.py: the model recommendation                              *)
(* ===================================================================== *)

Module Hardware.

Inductive device_class : Type := accelerator_cuda | accelerator_mps | cpu_only.

Record DeviceProfile : Type := {
  device : device_class;
  ram_gb : option Q;
  vram_gb : option Q
}.

(** Modelled from the spec: an entry of the Model Catalog of
    [hardware.py], which is absent from the sources: the abstract id, the
    upstream id, the resource requirement and the capability by which
    fitting entries are ranked. *)
Record CatalogEntry : Type := {
  entry_id : string;
  entry_hf_model_id : string;
  required_gb : Q;
  capability : nat
}.

(** The descriptor [cli.py] prints: [m['id']], [m['hf_model_id']],
    [m.get('recommended')]. *)
Record ModelDescriptor : Type := {
  id : string;
  hf_model_id : string;
  recommended : bool
}.

Section Catalog.
Variable catalog : list CatalogEntry.
(** The memory budget of a profile; the spec does not say how it is
    derived from [ram_gb] and [vram_gb]. *)
Variable available_memory : DeviceProfile -> Q.

(** Modelled from the spec: an entry fits when its resource requirement
    does not exceed the profile's available memory ([fits] of the absent
    [hardware.py]). *)
Definition fits (profile : DeviceProfile) (e : CatalogEntry) : bool :=
  Qle_bool (required_gb e) (available_memory profile).

(** Modelled from the spec: position and capability of the best entry
    of a list, the highest capability with ties going to the entry
    declared first (the ranking of the absent [recommend_models]). *)
Fixpoint best (l : list CatalogEntry) : option (nat * nat) :=
  match l with
  | [] => None
  | e :: t =>
      match best t with
      | None => Some (0, capability e)
      | Some (j, c) =>
          if Nat.leb c (capability e) then Some (0, capability e)
          else Some (S j, c)
      end
  end.

(** Modelled from the spec: the descriptors of [l], the one at position
    [b] marked (the marking of the absent [recommend_models]). *)
Fixpoint mark (i : nat) (b : option nat) (l : list CatalogEntry)
  : list ModelDescriptor :=
  match l with
  | [] => []
  | e :: t =>
      {| id := entry_id e;
         hf_model_id := entry_hf_model_id e;
         recommended := match b with
                        | Some k => Nat.eqb i k
                        | None => false
                        end |}
        :: mark (S i) b t
  end.

(** Modelled from the spec: [recommend_models] of the absent
    [hardware.py]: drop the entries that do not fit, keep catalog order,
    mark the best of the rest. *)
Definition recommend_models (profile : DeviceProfile)
  : list ModelDescriptor :=
  let fitting := filter (fits profile) catalog in
  mark 0 (option_map fst (best fitting)) fitting.

End Catalog.

Definition count_recommended (l : list ModelDescriptor) : nat :=
  List.length (filter recommended l).

End Hardware.

(* ===================================================================== *)
(** ** cli.py: the [models] command                                       *)
(* ===================================================================== *)

Module Cli.

(** ["\033"], the escape character of the ANSI colour codes. *)
Definition ESC : string := String (ascii_of_nat 27) EmptyString.

Definition GREEN : string := ESC ++ "[92m".

Definition YELLOW : string := ESC ++ "[93m".

Definition RED : string := ESC ++ "[91m".

Definition RESET : string := ESC ++ "[0m".

(** One element of [models_response['models']], as [run_models] reads it:
    [m['id']], [m['hf_model_id']] and [m.get('recommended')], which is
    [None] when the key is absent. *)
Record ModelEntry : Type := {
  id : string;
  hf_model_id : string;
  recommended : option bool
}.

(** The dictionary [get_available_models()] returns, by the keys
    [run_models] reads. *)
Record ModelsResponse : Type := {
  device : string;
  ram_gb : option Q;
  vram_gb : option Q;
  models : list ModelEntry
}.

Inductive api : Type :=
| get_available_models
| print (text : string).

(** What [run_models] needs from outside: the hardware module, and the
    built-ins [str.upper] and the float format [:.1f]. *)
Record Host : Type := {
  World : Type;
  host_get_available_models : World -> outcome ModelsResponse * World;
  upper : string -> string;
  format_1f : Q -> string
}.

Section WithHost.
Context (H : Host).

Definition C (A : Type) : Type := M (St := World H) (api := api) A.

Definition call_get_available_models : C ModelsResponse :=
  fun w =>
    let (r, w') := host_get_available_models H w in
    Run r w' [Called get_available_models (raised r)].

Definition py_print (text : string) : C unit :=
  emit (Called (print text) None).

Definition log_warn (message : string) : C unit := log Warning message.

(** Truth value of [m.get('recommended')]. *)
Definition truthy (v : option bool) : bool :=
  match v with
  | Some true => true
  | _ => false
  end.

(** The line the loop of [run_models] prints for [m]. *)
Definition model_line (m : ModelEntry) : string :=
  let rec_str : string :=
    if truthy (recommended m)
    then (" " ++ GREEN ++ "(Recommended)" ++ RESET)%string
    else "" in
  ("  * " ++ id m ++ " -> " ++ hf_model_id m ++ rec_str)%string.

(** [for m in ms: print(...)]. *)
Fixpoint print_models (ms : list ModelEntry) : C unit :=
  match ms with
  | [] => ret tt
  | m :: rest => py_print (model_line m) ;; print_models rest
  end.

(** [run_models(args)]; [args] is not read. *)
Definition run_models : C unit :=
  models_response <- call_get_available_models ;;
  py_print ("Device: " ++ upper H (device models_response))%string ;;
  match ram_gb models_response with
  | Some ram => py_print ("RAM: " ++ format_1f H ram ++ " GB")%string
  | None => ret tt
  end ;;
  match vram_gb models_response with
  | Some vram => py_print ("VRAM: " ++ format_1f H vram ++ " GB")%string
  | None => ret tt
  end ;;
  py_print (String (ascii_of_nat 10) "Available Models:") ;;
  match models models_response with
  | [] => log_warn "No models available for this hardware configuration."
  | _ :: _ => print_models (models models_response)
  end.

End WithHost.

(** The texts printed, in order. *)
Definition printed (l : list (event api)) : list string :=
  flat_map (fun e => match e with
                     | Called (print text) _ => [text]
                     | _ => []
                     end) l.

End Cli.

(* ===================================================================== *)
(** ** Test doubles                                                       *)
(* ===================================================================== *)

(** A host that follows a script: each fallible call consumes one entry,
    raising the exception it holds if any, and succeeds once the script is
    used up.  Loaded objects get consecutive identities. *)
Module Scripted.
Import Engine.

Record world : Type := {
  script : list (option py_exc);
  next_ref : ref;
  has_mps : bool;
  has_cuda : bool
}.

Definition step {A} (v : world -> A) (bump : nat) (w : world)
  : outcome A * world :=
  match script w with
  | Some e :: rest =>
      (Raise e,
       {| script := rest; next_ref := next_ref w;
          has_mps := has_mps w; has_cuda := has_cuda w |})
  | None :: rest =>
      (Ret (v w),
       {| script := rest; next_ref := bump + next_ref w;
          has_mps := has_mps w; has_cuda := has_cuda w |})
  | [] =>
      (Ret (v w),
       {| script := []; next_ref := bump + next_ref w;
          has_mps := has_mps w; has_cuda := has_cuda w |})
  end.

Definition host : Host :=
  {| World := world;
     Frames := list nat;
     repr := fun s => ("'" ++ s ++ "'")%string;
     host_detect_device :=
       step (fun w => if has_cuda w then "cuda"
                      else if has_mps w then "mps" else "cpu") 0;
     host_vae_from_pretrained := fun _ _ => step next_ref 1;
     host_pipe_from_pretrained := fun _ _ => step next_ref 1;
     host_dfloat11_from_pretrained := fun _ _ _ => step (fun _ => tt) 0;
     host_enable_model_cpu_offload := fun _ => step (fun _ => tt) 0;
     host_pipe_call := fun pipe args => step (fun _ => [[pipe; 150]]) 0;
     host_is_available :=
       fun b w => match b with mps => has_mps w | cuda => has_cuda w end;
     host_gc_collect := fun w => w;
     host_empty_cache := fun _ w => w |}.

Definition boot (sc : list (option py_exc)) (on_mps on_cuda : bool) : world :=
  {| script := sc; next_ref := 1; has_mps := on_mps; has_cuda := on_cuda |}.

(** A CUDA host on which every call succeeds, at import time. *)
Definition healthy : State host := initial host (boot [] false true).

(** The same host when the VAE files are missing on the first attempt. *)
Definition vae_missing : State host :=
  initial host
    (boot [None; Some (Exc "OSError" "model files not found in local cache")]
          false true).

(** The same host when loading succeeds and the first computation runs out
    of memory. *)
Definition computation_fails : State host :=
  initial host
    (boot [None; None; None; None; None; None;
           Some (Exc "RuntimeError" "out of memory")]
          false true).

Definition missing_files : py_exc :=
  Exc "OSError" "model files not found in local cache".

Definition out_of_memory : py_exc :=
  Exc "RuntimeError" "out of memory".

(** A database that fails every insert while [locked], and otherwise
    appends the row and returns its 1-based position. *)
Record dbworld : Type := {
  rows : list (Storage.AddGeneration unit);
  locked : bool
}.

Definition db : Storage.Db :=
  {| Storage.DbWorld := dbworld;
     Storage.Lora := unit;
     Storage.db_add_generation :=
       fun kw w =>
         if locked w then
           (Raise (Exc "OperationalError" "database is locked"), w)
         else
           (Ret (Z.of_nat (S (List.length (rows w)))),
            {| rows := rows w ++ [kw]; locked := false |}) |}.

(** [str.isalnum] restricted to ASCII: digits and the two letter ranges. *)
Definition ascii_isalnum (c : N) : bool :=
  ((48 <=? c) && (c <=? 57) || (65 <=? c) && (c <=? 90)
   || (97 <=? c) && (c <=? 122))%N.

(** The scenario of the spec: a CPU-only host with 8 GB of RAM, whose
    budget is its RAM, and a catalog of a 4 GB and a 16 GB entry. *)
Definition cpu_8gb : Hardware.DeviceProfile :=
  {| Hardware.device := Hardware.cpu_only;
     Hardware.ram_gb := Some (8 # 1)%Q;
     Hardware.vram_gb := None |}.

Definition ram_budget (p : Hardware.DeviceProfile) : Q :=
  match Hardware.ram_gb p with
  | Some r => r
  | None => (0 # 1)%Q
  end.

Definition small_entry : Hardware.CatalogEntry :=
  {| Hardware.entry_id := "small";
     Hardware.entry_hf_model_id := "org/small-4gb";
     Hardware.required_gb := (4 # 1)%Q;
     Hardware.capability := 1 |}.

Definition large_entry : Hardware.CatalogEntry :=
  {| Hardware.entry_id := "large";
     Hardware.entry_hf_model_id := "org/large-16gb";
     Hardware.required_gb := (16 # 1)%Q;
     Hardware.capability := 2 |}.

(** A [models] command on a host that reports the given response. *)
Definition cli_host (resp : outcome Cli.ModelsResponse) : Cli.Host :=
  {| Cli.World := unit;
     Cli.host_get_available_models := fun w => (resp, w);
     Cli.upper := fun s => s;
     Cli.format_1f := fun _ => "8.0" |}.

Definition two_models : Cli.ModelsResponse :=
  {| Cli.device := "cpu";
     Cli.ram_gb := Some (8 # 1)%Q;
     Cli.vram_gb := None;
     Cli.models :=
       [{| Cli.id := "small"; Cli.hf_model_id := "org/small";
           Cli.recommended := Some true |};
        {| Cli.id := "large"; Cli.hf_model_id := "org/large";
           Cli.recommended := None |}] |}.

(** The healthy host when the first computation is interrupted from the
    keyboard. *)
Definition interrupted : State host :=
  initial host
    (boot [None; None; None; None; None; None;
           Some (BaseExc "KeyboardInterrupt" "")]
          false true).

(** A database whose insert is interrupted from the keyboard. *)
Definition db_interrupted : Storage.Db :=
  {| Storage.DbWorld := unit;
     Storage.Lora := unit;
     Storage.db_add_generation :=
       fun _ w => (Raise (BaseExc "KeyboardInterrupt" ""), w) |}.

End Scripted.

(* ===================================================================== *)
(** ** The pipeline cache                                                 *)
(* ===================================================================== *)

Section EngineFacts.
Import Engine.
Context (H : Host).

(** Case analysis on the outcome of each host call a goal still waits
    for, in program order. *)
Ltac host_case x :=
  let r := fresh "r" in
  let w := fresh "w" in
  let E := fresh "E" in
  destruct x as [[r | r] w] eqn:E; simpl.

Ltac host_cases :=
  repeat match goal with
         | |- context [host_detect_device ?h ?w] =>
             host_case (host_detect_device h w)
         | |- context [host_vae_from_pretrained ?h ?a ?b ?w] =>
             host_case (host_vae_from_pretrained h a b w)
         | |- context [host_pipe_from_pretrained ?h ?a ?b ?w] =>
             host_case (host_pipe_from_pretrained h a b w)
         | |- context [host_dfloat11_from_pretrained ?h ?a ?b ?c ?w] =>
             host_case (host_dfloat11_from_pretrained h a b c w)
         | |- context [host_enable_model_cpu_offload ?h ?a ?w] =>
             host_case (host_enable_model_cpu_offload h a w)
         | |- context [host_pipe_call ?h ?a ?b ?w] =>
             host_case (host_pipe_call h a b w)
         end.

Ltac unfold_engine :=
  unfold load_pipeline, load_sequence, call, effect, probe, log_info,
    log_warn, log, emit, bind, ret, raise, get, put; simpl.

(** The fast path: with the slot filled, [load_pipeline] returns its
    content, logs one line and touches nothing. *)
Lemma load_pipeline_cached (d : option string) (s : State H) (p : ref) :
  _cached_pipe s = Some p ->
  load_pipeline H d s = Run (Ret p) s [Logged Info "using model exists"].
Proof.
  intros Hc. unfold load_pipeline, bind, get. simpl. rewrite Hc. reflexivity.
Qed.

Lemma load_pipeline_empty (d : option string) (s : State H) :
  _cached_pipe s = None ->
  load_pipeline H d s = load_sequence H d s.
Proof.
  intros Hc. unfold load_pipeline, bind, get. simpl. rewrite Hc.
  destruct (load_sequence H d s) as [r s' l]. simpl.
  destruct r; reflexivity.
Qed.

(** A completed load sequence fills the slot with the pipeline it
    returns, and made each of its host calls once, in order. *)
Lemma load_sequence_completed (d : option string) (s : State H) (p : ref) :
  res (load_sequence H d s) = Ret p ->
  _cached_pipe (st (load_sequence H d s)) = Some p
  /\ exists vae,
      filter (is_call is_load_step) (evs (load_sequence H d s)) =
        [Called (AutoencoderKLWan_from_pretrained wan_path "vae") None;
         Called (WanPipeline_from_pretrained wan_path vae) None;
         Called (DFloat11Model_from_pretrained df11_path transformer p) None;
         Called (DFloat11Model_from_pretrained df11_path_2 transformer_2 p)
                None;
         Called (enable_model_cpu_offload p) None]
  /\ count_calls is_detect_device (evs (load_sequence H d s)) =
       match d with None => 1 | Some _ => 0 end.
Proof.
  unfold count_calls. destruct d as [d |]; unfold_engine; host_cases;
    intros Hr; try discriminate Hr; injection Hr as <-;
    (split; [reflexivity | eexists; split; reflexivity]).
Qed.

Lemma count_calls_app (p : api -> bool) (l1 l2 : list (event api)) :
  count_calls p (l1 ++ l2) = count_calls p l1 + count_calls p l2.
Proof.
  unfold count_calls. rewrite filter_app, length_app. reflexivity.
Qed.

Lemma load_sequence_completed_counts (d : option string) (s : State H)
      (p : ref) :
  res (load_sequence H d s) = Ret p ->
  count_calls is_vae_load (evs (load_sequence H d s)) = 1
  /\ count_calls is_pipe_load (evs (load_sequence H d s)) = 1
  /\ count_calls is_df11_load (evs (load_sequence H d s)) = 2
  /\ count_calls is_offload (evs (load_sequence H d s)) = 1.
Proof.
  unfold count_calls. destruct d as [d |]; unfold_engine; host_cases;
    intros Hr; try discriminate Hr; repeat split; reflexivity.
Qed.

(** Either every call of the load sequence returned, and so did the
    sequence; or one of them raised, the sequence raised the same
    exception and the slot is as it was. *)
Lemma load_sequence_outcome (d : option string) (s : State H) :
  (exists p, res (load_sequence H d s) = Ret p
             /\ forall c e, ~ In (Called c (Some e)) (evs (load_sequence H d s)))
  \/ (exists c e, In (Called c (Some e)) (evs (load_sequence H d s))
                  /\ res (load_sequence H d s) = Raise e
                  /\ _cached_pipe (st (load_sequence H d s)) = _cached_pipe s
                  /\ forall c' e', In (Called c' (Some e'))
                                      (evs (load_sequence H d s)) -> e' = e).
Proof.
  destruct d as [d |]; unfold_engine; host_cases;
    first
      [ left; eexists; split; [reflexivity |];
        intros c e Hin; simpl in Hin;
        repeat (destruct Hin as [Hin | Hin]; [discriminate Hin |]);
        exact Hin
      | right; do 2 eexists; split;
        [ simpl; repeat (first [left; reflexivity | right]) |];
        split; [reflexivity |]; split; [reflexivity |];
        intros c' e' Hin; simpl in Hin;
        repeat (destruct Hin as [Hin | Hin];
                [first [discriminate Hin | injection Hin; congruence] |]);
        destruct Hin ].
Qed.

Lemma load_pipeline_calls_cached (devices : list (option string))
      (s : State H) (p : ref) :
  _cached_pipe s = Some p ->
  load_pipeline_calls H devices s =
    (map (fun _ => Ret p) devices, s,
     map (fun _ => Logged Info "using model exists") devices).
Proof.
  intros Hc. induction devices as [| d rest IH]; simpl.
  - reflexivity.
  - rewrite (load_pipeline_cached d s p Hc). simpl. rewrite IH. reflexivity.
Qed.

Lemma count_calls_logged (p : api -> bool) (A : Type) (xs : list A)
      (lvl : level) (msg : string) :
  count_calls p (map (fun _ => Logged lvl msg) xs) = 0.
Proof.
  unfold count_calls. induction xs as [| x xs IH]; simpl; auto.
Qed.

(** C1 (single-load invariant).  Take a state whose slot is empty and a
    call of [load_pipeline] that succeeds with pipeline [p].  Then every
    later call, whatever device hint it gets, returns that same [p], logs
    one line, leaves the state alone and makes no load call and no
    [detect_device] call; and over the first call and all later ones
    together each step of the load sequence ran exactly once (the
    DFloat11 step once per sub-module, twice in all). *)
Theorem load_pipeline_single_load
    (d : option string) (s : State H) (p : ref)
    (devices : list (option string)) :
  _cached_pipe s = None ->
  res (load_pipeline H d s) = Ret p ->
  let first := load_pipeline H d s in
  let later := load_pipeline_calls H devices (st first) in
  fst (fst later) = map (fun _ => Ret p) devices
  /\ snd (fst later) = st first
  /\ snd later = map (fun _ => Logged Info "using model exists") devices
  /\ count_calls is_load_step (snd later) = 0
  /\ count_calls is_detect_device (snd later) = 0
  /\ count_calls is_vae_load (evs first ++ snd later) = 1
  /\ count_calls is_pipe_load (evs first ++ snd later) = 1
  /\ count_calls is_df11_load (evs first ++ snd later) = 2
  /\ count_calls is_offload (evs first ++ snd later) = 1.
Proof.
  intros Hempty Hok first later. subst first later.
  rewrite (load_pipeline_empty d s Hempty) in *.
  destruct (load_sequence_completed d s p Hok) as [Hslot _].
  destruct (load_sequence_completed_counts d s p Hok)
    as (Hvae & Hpipe & Hdf & Hoff).
  rewrite (load_pipeline_calls_cached devices _ p Hslot). simpl.
  rewrite !count_calls_app, !count_calls_logged, Hvae, Hpipe, Hdf, Hoff.
  repeat split; reflexivity.
Qed.


(* ------------------------------------------------------------------- *)
(** *** The generation engine                                           *)
(* ------------------------------------------------------------------- *)

(** The [finally] suite returns, keeps the slot, is one reclamation pass
    and, besides, at most logs a warning. *)
Lemma finally_suite_run (s : State H) :
  res (finally_suite H s) = Ret tt
  /\ _cached_pipe (st (finally_suite H s)) = _cached_pipe s
  /\ filter (is_call is_reclaim) (evs (finally_suite H s)) =
       reclaim_pass H (world s)
  /\ filter (is_call (fun c => negb (is_reclaim c))) (evs (finally_suite H s))
     = []
  /\ count_logged Error (evs (finally_suite H s)) = 0.
Proof.
  unfold finally_suite, reclaim_pass, count_logged. unfold_engine.
  destruct (host_is_available H mps _) eqn:Emps; simpl;
    match goal with
    | |- context [host_is_available H cuda ?w] =>
        destruct (host_is_available H cuda w) eqn:Ecuda
    end; simpl; repeat split; reflexivity.
Qed.

Lemma load_pipeline_no_reclaim (d : option string) (s : State H) :
  filter (is_call is_reclaim) (evs (load_pipeline H d s)) = [].
Proof.
  destruct (_cached_pipe s) as [q |] eqn:Hslot.
  - rewrite (load_pipeline_cached d s q Hslot). reflexivity.
  - rewrite (load_pipeline_empty d s Hslot).
    destruct d as [d |]; unfold_engine; host_cases; reflexivity.
Qed.

Ltac guarded_cases s :=
  let Hslot := fresh "Hslot" in
  unfold guarded_suite, try_suite, with_inference_mode, except_suite, index0;
  unfold try_finally, try_except_Exception;
  unfold_engine;
  destruct (_cached_pipe s) eqn:Hslot; simpl; host_cases;
  repeat match goal with
         | |- context [isinstance_Exception ?e] =>
             destruct e; simpl
         | |- context [match ?l with [] => _ | _ :: _ => _ end] =>
             destruct l; simpl
         end.

(** The guarded suite makes no reclamation call, leaves the slot as
    pipeline acquisition left it, and calls the pipeline with
    [gen_args prompt] or not at all. *)
Lemma guarded_suite_run (prompt : string) (s : State H) :
  filter (is_call is_reclaim) (evs (guarded_suite H prompt s)) = []
  /\ _cached_pipe (st (guarded_suite H prompt s)) =
       _cached_pipe (st (load_pipeline H None s))
  /\ forall pipe args exn,
      In (Called (pipe_call pipe args) exn) (evs (guarded_suite H prompt s)) ->
      args = gen_args prompt.
Proof.
  guarded_cases s;
    (split; [reflexivity |]; split; [reflexivity |]);
    intros pipe args exn Hin; simpl in Hin;
    repeat (destruct Hin as [Hin | Hin];
            [first [discriminate Hin | injection Hin; congruence] |]);
    destruct Hin.
Qed.

(** [generate_video] is its guarded suite, then the [finally] suite from
    the state the guarded suite left, then [return video]. *)
Lemma generate_video_run (prompt : string) (s : State H) :
  let g := guarded_suite H prompt s in
  let f := finally_suite H (st g) in
  res (generate_video H prompt s) =
    match res g with
    | Ret (Some v) => Ret (Some v)
    | Ret None =>
        Raise (Exc "UnboundLocalError"
                   "local variable 'video' referenced before assignment")
    | Raise e => Raise e
    end
  /\ st (generate_video H prompt s) = st f
  /\ evs (generate_video H prompt s) = evs g ++ evs f.
Proof.
  intros g f. subst g f.
  destruct (finally_suite_run (st (guarded_suite H prompt s))) as [Hret _].
  unfold generate_video, try_finally, bind.
  destruct (guarded_suite H prompt s) as [r s1 l1]. simpl in *.
  destruct (finally_suite H s1) as [rf s2 l2]. simpl in *. subst rf.
  destruct r as [[v |] | e]; simpl; rewrite ?app_nil_r; auto.
Qed.

Lemma count_calls_refine (p q : api -> bool) (l : list (event api)) :
  (forall c, q c = true -> p c = true) ->
  count_calls q (filter (is_call p) l) = count_calls q l.
Proof.
  intros Hqp. unfold count_calls.
  induction l as [| [c exn | lvl msg] l IH]; simpl; auto.
  destruct (p c) eqn:Ep; simpl.
  - destruct (q c); simpl; auto.
  - destruct (q c) eqn:Eq; auto. rewrite (Hqp c Eq) in Ep. discriminate Ep.
Qed.

Lemma filter_nil_not_In {A} (f : A -> bool) (l : list A) (x : A) :
  filter f l = [] -> f x = true -> ~ In x l.
Proof.
  intros Hnil Hfx Hin.
  assert (Hx : In x (filter f l)) by (apply filter_In; auto).
  rewrite Hnil in Hx. destruct Hx.
Qed.

(** C4 (guaranteed cleanup).  Whatever the prompt, the state and the host
    do -- the pipeline is acquired or acquisition raises, the computation
    returns or raises -- the reclamation calls of one [generate_video] call
    are exactly one pass, made from the world the guarded suite left: one
    [gc.collect()], and for each accelerator backend one flush when the
    backend is available and none when it is not. *)
Theorem generate_video_reclaims_once (prompt : string) (s : State H) :
  let r := generate_video H prompt s in
  let w := world (st (guarded_suite H prompt s)) in
  let w1 := host_gc_collect H w in
  let w2 := if host_is_available H mps w1
            then host_empty_cache H mps w1 else w1 in
  filter (is_call is_reclaim) (evs r) = reclaim_pass H w
  /\ count_calls is_gc_collect (evs r) = 1
  /\ count_calls (is_empty_cache mps) (evs r) =
       (if host_is_available H mps w1 then 1 else 0)
  /\ count_calls (is_empty_cache cuda) (evs r) =
       (if host_is_available H cuda w2 then 1 else 0).
Proof.
  intros r w w1 w2. subst r w w1 w2.
  destruct (generate_video_run prompt s) as (_ & _ & Hevs).
  destruct (guarded_suite_run prompt s) as (Hquiet & _).
  destruct (finally_suite_run (st (guarded_suite H prompt s)))
    as (_ & _ & Hpass & _).
  assert (Hfilter : filter (is_call is_reclaim)
                           (evs (generate_video H prompt s)) =
                    reclaim_pass H (world (st (guarded_suite H prompt s)))).
  { rewrite Hevs, filter_app, Hquiet, Hpass. reflexivity. }
  split; [exact Hfilter |].
  rewrite <- (count_calls_refine is_reclaim is_gc_collect),
          <- (count_calls_refine is_reclaim (is_empty_cache mps)),
          <- (count_calls_refine is_reclaim (is_empty_cache cuda)), Hfilter;
    try (intros [] Hc; try discriminate Hc; reflexivity).
  unfold reclaim_pass, count_calls.
  destruct (host_is_available H mps _); simpl;
    destruct (host_is_available H cuda _); simpl; repeat split; reflexivity.
Qed.

(** C5 (cleanup frame condition).  When [generate_video] finishes, on any
    path, the slot [_cached_pipe] holds what it held when pipeline
    acquisition within that call finished. *)
Theorem generate_video_keeps_cache (prompt : string) (s : State H) :
  _cached_pipe (st (generate_video H prompt s)) =
    _cached_pipe (st (load_pipeline H None s)).
Proof.
  destruct (generate_video_run prompt s) as (_ & Hst & _).
  destruct (guarded_suite_run prompt s) as (_ & Hslot & _).
  destruct (finally_suite_run (st (guarded_suite H prompt s)))
    as (_ & Hkeep & _).
  rewrite Hst, Hkeep, Hslot. reflexivity.
Qed.


Lemma load_pipeline_logs_no_error (d : option string) (s : State H) :
  count_logged Error (evs (load_pipeline H d s)) = 0.
Proof.
  unfold count_logged. destruct (_cached_pipe s) as [q |] eqn:Hslot.
  - rewrite (load_pipeline_cached d s q Hslot). reflexivity.
  - rewrite (load_pipeline_empty d s Hslot).
    destruct d as [d |]; unfold_engine; host_cases; reflexivity.
Qed.

Lemma count_logged_app (lvl : level) (l1 l2 : list (event api)) :
  count_logged lvl (l1 ++ l2) = count_logged lvl l1 + count_logged lvl l2.
Proof.
  unfold count_logged. rewrite filter_app, length_app. reflexivity.
Qed.

(** When the pipeline is acquired and the computation raises an instance
    of [Exception], the guarded suite logs the error once and ends with
    [video] unbound. *)
Lemma guarded_suite_computation_raises
    (prompt : string) (s : State H) (p : ref) (cls msg : string)
    (w' : World H) :
  res (load_pipeline H None s) = Ret p ->
  host_pipe_call H p (gen_args prompt)
                 (world (st (load_pipeline H None s))) =
    (Raise (Exc cls msg), w') ->
  res (guarded_suite H prompt s) = Ret None
  /\ count_logged Error (evs (guarded_suite H prompt s)) = 1
  /\ In (Logged Error ("Error generating video: " ++ msg))
        (evs (guarded_suite H prompt s))
  /\ In (Called (pipe_call p (gen_args prompt)) (Some (Exc cls msg)))
        (evs (guarded_suite H prompt s)).
Proof.
  intros Hok Hraise.
  pose proof (load_pipeline_logs_no_error None s) as Hlog.
  unfold guarded_suite, try_suite, with_inference_mode, except_suite.
  unfold try_finally, try_except_Exception, call, log_info, log, emit, bind,
    ret.
  destruct (load_pipeline H None s) as [r s1 l1]. simpl in *. subst r.
  rewrite Hraise. simpl.
  split; [reflexivity |]. split.
  - unfold count_logged in *. simpl.
    rewrite !filter_app, !length_app, Hlog. reflexivity.
  - split; right; rewrite !in_app_iff; simpl; tauto.
Qed.

(** C2 (generation failure policy), as the code has it.  When the pipeline
    has been acquired and the computation raises an instance of
    [Exception], [generate_video] logs one error, runs the reclamation pass
    and then raises [UnboundLocalError] from [return video]: the local
    [video] was never assigned.  It does not return "no result". *)
Theorem generate_video_computation_raises
    (prompt : string) (s : State H) (p : ref) (cls msg : string)
    (w' : World H) :
  res (load_pipeline H None s) = Ret p ->
  host_pipe_call H p (gen_args prompt)
                 (world (st (load_pipeline H None s))) =
    (Raise (Exc cls msg), w') ->
  let r := generate_video H prompt s in
  res r = Raise (Exc "UnboundLocalError"
                     "local variable 'video' referenced before assignment")
  /\ res r <> Ret None
  /\ count_logged Error (evs r) = 1
  /\ In (Logged Error ("Error generating video: " ++ msg)) (evs r)
  /\ count_calls is_gc_collect (evs r) = 1.
Proof.
  intros Hok Hraise r. subst r.
  destruct (generate_video_run prompt s) as (Hres & _ & Hevs).
  destruct (guarded_suite_computation_raises prompt s p cls msg w' Hok Hraise)
    as (Hnone & Hcount & Hin & _).
  destruct (guarded_suite_run prompt s) as (Hquiet & _).
  destruct (finally_suite_run (st (guarded_suite H prompt s)))
    as (_ & _ & Hpass & _ & Hnoerr).
  rewrite Hnone in Hres. rewrite Hres, Hevs.
  split; [reflexivity |]. split; [discriminate |].
  rewrite count_logged_app, Hcount, Hnoerr.
  split; [reflexivity |]. split; [apply in_or_app; left; exact Hin |].
  rewrite <- (count_calls_refine is_reclaim is_gc_collect)
    by (intros [] Hc; try discriminate Hc; reflexivity).
  rewrite filter_app, Hquiet, Hpass. unfold reclaim_pass, count_calls.
  destruct (host_is_available H mps _); simpl;
    destruct (host_is_available H cuda _); reflexivity.
Qed.

(** On no input does [generate_video] return Python's [None]. *)
Lemma generate_video_never_returns_None (prompt : string) (s : State H) :
  res (generate_video H prompt s) <> Ret None.
Proof.
  destruct (generate_video_run prompt s) as (Hres & _).
  rewrite Hres. destruct (res (guarded_suite H prompt s)) as [[v |] | e];
    discriminate.
Qed.

(* ------------------------------------------------------------------- *)
(** *** Further facts about the engine                                  *)
(* ------------------------------------------------------------------- *)

(** Open the guarded suite up to the call of [load_pipeline], and name what
    that call gave. *)
Ltac guarded_by_load s :=
  unfold guarded_suite, try_suite, with_inference_mode, except_suite, index0;
  unfold try_finally, try_except_Exception, call, log_info, log, emit, bind,
    ret, raise;
  let r := fresh "r" in
  let s1 := fresh "s1" in
  let l1 := fresh "l1" in
  destruct (load_pipeline H None s) as [r s1 l1]; simpl in *.

(** A call of [load_pipeline] that raises found the slot empty and leaves
    it empty. *)
Lemma load_pipeline_raises_empty (d : option string) (s : State H)
      (e : py_exc) :
  res (load_pipeline H d s) = Raise e ->
  _cached_pipe s = None /\ _cached_pipe (st (load_pipeline H d s)) = None.
Proof.
  intros Hres. destruct (_cached_pipe s) as [q |] eqn:Hslot.
  - rewrite (load_pipeline_cached d s q Hslot) in Hres. discriminate Hres.
  - split; [reflexivity |]. rewrite (load_pipeline_empty d s Hslot) in *.
    destruct (load_sequence_outcome d s)
      as [(p & Hok & _) | (c & e0 & _ & _ & Hkeep & _)].
    + rewrite Hok in Hres. discriminate Hres.
    + rewrite Hkeep. exact Hslot.
Qed.

(** A call of [load_pipeline] that returns leaves its result in the
    slot. *)
Lemma load_pipeline_returns_cached (d : option string) (s : State H)
      (p : ref) :
  res (load_pipeline H d s) = Ret p ->
  _cached_pipe (st (load_pipeline H d s)) = Some p.
Proof.
  intros Hres. destruct (_cached_pipe s) as [q |] eqn:Hslot.
  - rewrite (load_pipeline_cached d s q Hslot) in *. simpl in *.
    injection Hres as <-. exact Hslot.
  - rewrite (load_pipeline_empty d s Hslot) in *.
    exact (proj1 (load_sequence_completed d s p Hres)).
Qed.

Lemma count_calls_finally (q : api -> bool) (s : State H) :
  (forall c, q c = true -> is_reclaim c = false) ->
  count_calls q (evs (finally_suite H s)) = 0.
Proof.
  intros Hq.
  destruct (finally_suite_run s) as (_ & _ & _ & Hrest & _).
  rewrite <- (count_calls_refine (fun c => negb (is_reclaim c)) q).
  - rewrite Hrest. reflexivity.
  - intros c Hc. rewrite (Hq c Hc). reflexivity.
Qed.

(** The guarded suite calls the pipeline once when acquisition returned
    and not at all when it raised, and enters and leaves inference mode
    just as often. *)
Lemma guarded_suite_shape (prompt : string) (s : State H) :
  let n := match res (load_pipeline H None s) with
           | Ret _ => 1
           | Raise _ => 0
           end in
  count_calls is_pipe_call (evs (guarded_suite H prompt s)) = n
  /\ count_calls is_inference_enter (evs (guarded_suite H prompt s)) = n
  /\ count_calls is_inference_exit (evs (guarded_suite H prompt s)) = n
  /\ count_calls is_load_step (evs (guarded_suite H prompt s)) =
       count_calls is_load_step (evs (load_pipeline H None s))
  /\ count_calls is_detect_device (evs (guarded_suite H prompt s)) =
       count_calls is_detect_device (evs (load_pipeline H None s)).
Proof.
  pose proof (count_calls_app is_pipe_call) as Happ.
  assert (Hload : count_calls is_pipe_call (evs (load_pipeline H None s)) = 0
                  /\ count_calls is_inference_enter
                       (evs (load_pipeline H None s)) = 0
                  /\ count_calls is_inference_exit
                       (evs (load_pipeline H None s)) = 0).
  { unfold count_calls. destruct (_cached_pipe s) as [q |] eqn:Hslot.
    - rewrite (load_pipeline_cached None s q Hslot). repeat split.
    - rewrite (load_pipeline_empty None s Hslot).
      unfold_engine; host_cases; repeat split. }
  destruct Hload as (Hp & Hin & Hout). revert Hp Hin Hout.
  guarded_by_load s. intros Hp Hin Hout.
  destruct r as [p | e]; simpl.
  - destruct (host_pipe_call H p (gen_args prompt) (world s1))
      as [[[| v rest] | e] w]; simpl;
      try (destruct (isinstance_Exception e); simpl);
      unfold count_calls in *; simpl;
      rewrite ?filter_app, ?length_app; simpl;
      rewrite ?filter_app, ?length_app; simpl;
      rewrite ?Hp, ?Hin, ?Hout; repeat split; lia.
  - destruct (isinstance_Exception e); simpl;
      unfold count_calls in *; simpl;
      rewrite ?filter_app, ?length_app; simpl;
      rewrite ?Hp, ?Hin, ?Hout; repeat split; lia.
Qed.

(** When the pipeline is acquired and the computation returns a non-empty
    batch, the guarded suite binds [video] to its first element and logs no
    error. *)
Lemma guarded_suite_computation_returns
    (prompt : string) (s : State H) (p : ref) (v : Frames H)
    (rest : list (Frames H)) (w' : World H) :
  res (load_pipeline H None s) = Ret p ->
  host_pipe_call H p (gen_args prompt)
                 (world (st (load_pipeline H None s))) =
    (Ret (v :: rest), w') ->
  res (guarded_suite H prompt s) = Ret (Some v)
  /\ count_logged Error (evs (guarded_suite H prompt s)) = 0.
Proof.
  intros Hok Hcall.
  pose proof (load_pipeline_logs_no_error None s) as Hlog.
  revert Hok Hcall Hlog. guarded_by_load s. intros Hok Hcall Hlog. subst r.
  rewrite Hcall. simpl. split; [reflexivity |].
  unfold count_logged in *. simpl.
  rewrite !filter_app, !length_app, Hlog. reflexivity.
Qed.

(** X1 (success path).  When the pipeline is acquired and the computation
    returns a non-empty batch of frame sequences, [generate_video] returns
    the first of them and logs no error. *)
Theorem generate_video_returns_first_frames
    (prompt : string) (s : State H) (p : ref) (v : Frames H)
    (rest : list (Frames H)) (w' : World H) :
  res (load_pipeline H None s) = Ret p ->
  host_pipe_call H p (gen_args prompt)
                 (world (st (load_pipeline H None s))) =
    (Ret (v :: rest), w') ->
  res (generate_video H prompt s) = Ret (Some v)
  /\ count_logged Error (evs (generate_video H prompt s)) = 0.
Proof.
  intros Hok Hcall.
  destruct (generate_video_run prompt s) as (Hres & _ & Hevs).
  destruct (guarded_suite_computation_returns prompt s p v rest w' Hok Hcall)
    as (Hsome & Hquiet).
  destruct (finally_suite_run (st (guarded_suite H prompt s)))
    as (_ & _ & _ & _ & Hnoerr).
  rewrite Hsome in Hres. rewrite Hres, Hevs, count_logged_app, Hquiet, Hnoerr.
  split; reflexivity.
Qed.

(** X2 (what a return carries).  Whenever [generate_video] returns, the
    pipeline had been acquired, the computation had returned a non-empty
    batch, and the value returned is the first element of that batch; in
    particular it never returns [None]. *)
Theorem generate_video_return_value
    (prompt : string) (s : State H) (o : option (Frames H)) :
  res (generate_video H prompt s) = Ret o ->
  exists p v rest w',
    res (load_pipeline H None s) = Ret p
    /\ host_pipe_call H p (gen_args prompt)
                      (world (st (load_pipeline H None s))) =
         (Ret (v :: rest), w')
    /\ o = Some v.
Proof.
  intros Hret.
  destruct (generate_video_run prompt s) as (Hres & _).
  rewrite Hres in Hret. clear Hres.
  assert (Hg : exists v, res (guarded_suite H prompt s) = Ret (Some v)
                         /\ o = Some v).
  { destruct (res (guarded_suite H prompt s)) as [[v |] | e];
      try discriminate Hret.
    exists v. split; [reflexivity |]. injection Hret as <-. reflexivity. }
  destruct Hg as (v & Hg & ->). revert Hg. guarded_by_load s.
  destruct r as [p | e]; simpl.
  - destruct (host_pipe_call H p (gen_args prompt) (world s1))
      as [[[| v0 rest] | e] w] eqn:Ecall; simpl;
      try (destruct (isinstance_Exception e); simpl);
      intros Hg; try discriminate Hg.
    injection Hg as <-. exists p, v0, rest, w.
    split; [reflexivity |]. split; [exact Ecall | reflexivity].
  - destruct (isinstance_Exception e); simpl; intros Hg; discriminate Hg.
Qed.

(** X3 (load errors inside a generation).  When pipeline acquisition raises
    an instance of [Exception] inside [generate_video], the handler of
    [generate_video] catches it: the error is logged, the pipeline is never
    called, the slot stays empty and the caller gets [UnboundLocalError]
    instead of the load error. *)
Theorem generate_video_load_failure
    (prompt : string) (s : State H) (cls msg : string) :
  res (load_pipeline H None s) = Raise (Exc cls msg) ->
  let r := generate_video H prompt s in
  res r = Raise (Exc "UnboundLocalError"
                     "local variable 'video' referenced before assignment")
  /\ In (Logged Error ("Error generating video: " ++ msg)) (evs r)
  /\ count_calls is_pipe_call (evs r) = 0
  /\ _cached_pipe (st r) = None.
Proof.
  intros Hfail r. subst r.
  destruct (generate_video_run prompt s) as (Hres & Hst & Hevs).
  destruct (guarded_suite_run prompt s) as (_ & Hslot & _).
  destruct (guarded_suite_shape prompt s) as (Hpipe & _).
  destruct (finally_suite_run (st (guarded_suite H prompt s)))
    as (_ & Hkeep & _).
  destruct (load_pipeline_raises_empty None s _ Hfail) as [_ Hnone].
  rewrite Hfail in Hpipe.
  assert (Hg : res (guarded_suite H prompt s) = Ret None
               /\ In (Logged Error ("Error generating video: " ++ msg))
                     (evs (guarded_suite H prompt s))).
  { revert Hfail. clear. guarded_by_load s. intros ->. simpl.
    split; [reflexivity |]. right. rewrite in_app_iff. simpl. tauto. }
  destruct Hg as [Hg Hin]. rewrite Hg in Hres.
  rewrite Hres, Hst, Hkeep, Hslot, Hnone, Hevs, count_calls_app, Hpipe.
  split; [reflexivity |]. split; [apply in_or_app; left; exact Hin |].
  split; [| reflexivity].
  rewrite count_calls_finally; [reflexivity |].
  intros [] Hc; try discriminate Hc; reflexivity.
Qed.

(** X4 (interrupts).  When the pipeline is acquired and the computation
    raises an exception that is not an instance of [Exception]
    ([KeyboardInterrupt], [SystemExit]), [generate_video] raises that same
    exception, after one reclamation pass and without logging an error. *)
Theorem generate_video_interrupt
    (prompt : string) (s : State H) (p : ref) (cls msg : string)
    (w' : World H) :
  res (load_pipeline H None s) = Ret p ->
  host_pipe_call H p (gen_args prompt)
                 (world (st (load_pipeline H None s))) =
    (Raise (BaseExc cls msg), w') ->
  let r := generate_video H prompt s in
  res r = Raise (BaseExc cls msg)
  /\ count_logged Error (evs r) = 0
  /\ count_calls is_gc_collect (evs r) = 1.
Proof.
  intros Hok Hcall r. subst r.
  destruct (generate_video_run prompt s) as (Hres & _ & Hevs).
  destruct (guarded_suite_run prompt s) as (Hquiet & _).
  destruct (finally_suite_run (st (guarded_suite H prompt s)))
    as (_ & _ & Hpass & _ & Hnoerr).
  pose proof (load_pipeline_logs_no_error None s) as Hlog.
  assert (Hg : res (guarded_suite H prompt s) = Raise (BaseExc cls msg)
               /\ count_logged Error (evs (guarded_suite H prompt s)) = 0).
  { revert Hok Hcall Hlog. clear. guarded_by_load s.
    intros Hok Hcall Hlog. subst r. rewrite Hcall. simpl.
    split; [reflexivity |]. unfold count_logged in *. simpl.
    rewrite !filter_app, !length_app, Hlog. reflexivity. }
  destruct Hg as [Hg Hnolog]. rewrite Hg in Hres.
  rewrite Hres, Hevs, count_logged_app, Hnolog, Hnoerr.
  split; [reflexivity |]. split; [reflexivity |].
  rewrite <- (count_calls_refine is_reclaim is_gc_collect)
    by (intros [] Hc; try discriminate Hc; reflexivity).
  rewrite filter_app, Hquiet, Hpass. unfold reclaim_pass, count_calls.
  destruct (host_is_available H mps _); simpl;
    destruct (host_is_available H cuda _); reflexivity.
Qed.

(** X5 (one pipeline call per generation).  A call of [generate_video]
    calls the pipeline exactly once when acquisition returned and never
    when it raised; it enters inference mode exactly as often as it calls
    the pipeline, and leaves it as often as it enters it, whatever the
    computation does. *)
Theorem generate_video_calls_pipeline_once (prompt : string) (s : State H) :
  let r := generate_video H prompt s in
  let n := match res (load_pipeline H None s) with
           | Ret _ => 1
           | Raise _ => 0
           end in
  count_calls is_pipe_call (evs r) = n
  /\ count_calls is_inference_enter (evs r) = n
  /\ count_calls is_inference_exit (evs r) = n.
Proof.
  intros r n. subst r n.
  destruct (generate_video_run prompt s) as (_ & _ & Hevs).
  destruct (guarded_suite_shape prompt s) as (Hpipe & Henter & Hexit & _).
  rewrite Hevs, !count_calls_app, Hpipe, Henter, Hexit.
  rewrite !count_calls_finally
    by (intros [] Hc; try discriminate Hc; reflexivity).
  repeat split; lia.
Qed.


(** X6 (cleanup_memory).  [cleanup_memory] returns, leaves the slot alone,
    logs nothing, and makes exactly the host calls of the [finally] suite
    of [generate_video] from the same state, ending in the same state: one
    reclamation pass. *)
Theorem cleanup_memory_is_reclaim_pass (s : State H) :
  res (cleanup_memory H s) = Ret tt
  /\ _cached_pipe (st (cleanup_memory H s)) = _cached_pipe s
  /\ evs (cleanup_memory H s) = reclaim_pass H (world s)
  /\ evs (cleanup_memory H s) =
       filter (is_call (fun _ => true)) (evs (finally_suite H s))
  /\ st (cleanup_memory H s) = st (finally_suite H s).
Proof.
  unfold cleanup_memory, finally_suite, reclaim_pass. unfold_engine.
  destruct (host_is_available H mps _) eqn:Emps; simpl;
    match goal with
    | |- context [host_is_available H cuda ?w] =>
        destruct (host_is_available H cuda w) eqn:Ecuda
    end; simpl; repeat split; reflexivity.
Qed.

(** X7 (the device hint).  With an explicit hint [load_pipeline] never
    calls [detect_device], and the hint reaches nothing but a log line: two
    calls from the same state with different hints have the same outcome,
    leave the same state and make the same host calls. *)
Theorem load_pipeline_hint_only_logged (d1 d2 : string) (s : State H) :
  res (load_pipeline H (Some d1) s) = res (load_pipeline H (Some d2) s)
  /\ st (load_pipeline H (Some d1) s) = st (load_pipeline H (Some d2) s)
  /\ filter (is_call (fun _ => true)) (evs (load_pipeline H (Some d1) s)) =
       filter (is_call (fun _ => true)) (evs (load_pipeline H (Some d2) s))
  /\ count_calls is_detect_device (evs (load_pipeline H (Some d1) s)) = 0.
Proof.
  unfold count_calls. destruct (_cached_pipe s) as [q |] eqn:Hslot.
  - rewrite !(load_pipeline_cached _ s q Hslot). repeat split.
  - rewrite !(load_pipeline_empty _ s Hslot).
    unfold_engine; host_cases; repeat split; reflexivity.
Qed.

Lemma cleanup_memory_keeps_slot (s : State H) :
  _cached_pipe (st (cleanup_memory H s)) = _cached_pipe s.
Proof.
  unfold cleanup_memory. unfold_engine.
  destruct (host_is_available H mps _); simpl;
    destruct (host_is_available H cuda _); reflexivity.
Qed.

(** X8 (no eviction).  Nothing in [engine.py] empties or replaces a filled
    slot: if [_cached_pipe] holds [p], it still holds [p] after
    [load_pipeline], after [generate_video] and after [cleanup_memory]. *)
Theorem cached_pipe_never_evicted
    (s : State H) (p : ref) (d : option string) (prompt : string) :
  _cached_pipe s = Some p ->
  _cached_pipe (st (load_pipeline H d s)) = Some p
  /\ _cached_pipe (st (generate_video H prompt s)) = Some p
  /\ _cached_pipe (st (cleanup_memory H s)) = Some p.
Proof.
  intros Hslot.
  destruct (generate_video_run prompt s) as (_ & Hst & _).
  destruct (guarded_suite_run prompt s) as (_ & Hg & _).
  destruct (finally_suite_run (st (guarded_suite H prompt s)))
    as (_ & Hkeep & _).
  rewrite Hst, Hkeep, Hg, cleanup_memory_keeps_slot,
    !(load_pipeline_cached _ s p Hslot).
  repeat split; exact Hslot.
Qed.

(** X9 (successive generations).  After a generation whose acquisition
    returned pipeline [p], the slot holds [p], and the next generation,
    whatever its prompt and whatever the first computation did, makes no
    load call and no [detect_device] call and calls [p] itself, once. *)
Theorem generate_video_twice_reuses_pipeline
    (prompt1 prompt2 : string) (s : State H) (p : ref) :
  res (load_pipeline H None s) = Ret p ->
  let s1 := st (generate_video H prompt1 s) in
  let r2 := generate_video H prompt2 s1 in
  _cached_pipe s1 = Some p
  /\ count_calls is_load_step (evs r2) = 0
  /\ count_calls is_detect_device (evs r2) = 0
  /\ count_calls is_pipe_call (evs r2) = 1
  /\ forall q args exn,
      In (Called (pipe_call q args) exn) (evs r2) ->
      q = p /\ args = gen_args prompt2.
Proof.
  intros Hok s1 r2. subst r2.
  assert (Hs1 : _cached_pipe s1 = Some p).
  { subst s1.
    destruct (generate_video_run prompt1 s) as (_ & Hst & _).
    destruct (guarded_suite_run prompt1 s) as (_ & Hg & _).
    destruct (finally_suite_run (st (guarded_suite H prompt1 s)))
      as (_ & Hkeep & _).
    rewrite Hst, Hkeep, Hg. exact (load_pipeline_returns_cached None s p Hok). }
  split; [exact Hs1 |]. clearbody s1. clear Hok s.
  destruct (generate_video_run prompt2 s1) as (_ & _ & Hevs).
  destruct (guarded_suite_shape prompt2 s1)
    as (Hpipe & _ & _ & Hload & Hdetect).
  destruct (guarded_suite_run prompt2 s1) as (_ & _ & Hargs).
  destruct (finally_suite_run (st (guarded_suite H prompt2 s1)))
    as (_ & _ & _ & Hrest & _).
  rewrite (load_pipeline_cached None s1 p Hs1) in Hpipe, Hload, Hdetect.
  rewrite Hevs, !count_calls_app, Hpipe, Hload, Hdetect.
  rewrite !count_calls_finally
    by (intros [] Hc; try discriminate Hc; reflexivity).
  split; [reflexivity |]. split; [reflexivity |]. split; [reflexivity |].
  intros q args exn Hin. apply in_app_or in Hin. destruct Hin as [Hin | Hin].
  - split; [| exact (Hargs q args exn Hin)].
    revert Hin. clear - Hs1.
    unfold guarded_suite, try_suite, with_inference_mode, except_suite,
      index0.
    unfold try_finally, try_except_Exception, call, log_info, log, emit, bind,
      ret, raise.
    rewrite (load_pipeline_cached None s1 p Hs1). simpl.
    destruct (host_pipe_call H p (gen_args prompt2) (world s1))
      as [[[| v rest] | e] w]; simpl;
      try (destruct (isinstance_Exception e); simpl);
      intros Hin;
      repeat (destruct Hin as [Hin | Hin];
              [first [discriminate Hin | injection Hin; congruence] |]);
      destruct Hin.
  - exfalso. revert Hin. apply (filter_nil_not_In _ _ _ Hrest). reflexivity.
Qed.

(** Successive calls of [load_pipeline] from an empty slot: a run of calls
    that raise, then, from the first call that returns, calls that all
    return the pipeline that call loaded. *)
Lemma load_pipeline_calls_shape (devices : list (option string)) :
  forall s : State H,
    _cached_pipe s = None ->
    exists n,
      Forall (fun o => exists e, o = Raise e)
             (firstn n (fst (fst (load_pipeline_calls H devices s))))
      /\ exists p,
          Forall (fun o => o = Ret p)
                 (skipn n (fst (fst (load_pipeline_calls H devices s)))).
Proof.
  induction devices as [| d rest IH]; intros s Hslot.
  - exists 0. simpl. split; [constructor |]. exists 0. constructor.
  - simpl. destruct (res (load_pipeline H d s)) as [p | e] eqn:Hres.
    + pose proof (load_pipeline_returns_cached d s p Hres) as Hfilled.
      rewrite (load_pipeline_calls_cached rest _ p Hfilled). simpl.
      exists 0. simpl. split; [constructor |]. exists p.
      constructor; [reflexivity |].
      clear. induction rest as [| x rest IH]; simpl; constructor; auto.
    + destruct (load_pipeline_raises_empty d s e Hres) as [_ Hnone].
      destruct (IH _ Hnone) as (n & Hfails & p & Hsame).
      destruct (load_pipeline_calls H rest (st (load_pipeline H d s)))
        as [[outs s'] l]. simpl in *.
      exists (S n). simpl. split.
      * constructor; [exists e; reflexivity | exact Hfails].
      * exists p. exact Hsame.
Qed.

(** X10 (one pipeline per process).  Over any sequence of [load_pipeline]
    calls that starts with an empty slot, whatever the hints and however
    many calls raise in between, every call that returns, returns the same
    pipeline, and no call raises after one has returned. *)
Theorem load_pipeline_calls_agree
    (devices : list (option string)) (s : State H) :
  _cached_pipe s = None ->
  let outs := fst (fst (load_pipeline_calls H devices s)) in
  (forall p q, In (Ret p) outs -> In (Ret q) outs -> p = q)
  /\ (forall i j p e,
         nth_error outs i = Some (Ret p) ->
         nth_error outs j = Some (Raise e) -> j < i).
Proof.
  intros Hslot outs. subst outs.
  destruct (load_pipeline_calls_shape devices s Hslot)
    as (n & Hfails & p0 & Hsame).
  set (outs := fst (fst (load_pipeline_calls H devices s))) in *.
  rewrite Forall_forall in Hfails, Hsame.
  assert (Hret : forall p, In (Ret p) outs -> p = p0).
  { intros p Hin. rewrite <- (firstn_skipn n outs) in Hin.
    apply in_app_or in Hin. destruct Hin as [Hin | Hin].
    - destruct (Hfails _ Hin) as [e He]. discriminate He.
    - specialize (Hsame _ Hin). injection Hsame as ->. reflexivity. }
  split.
  - intros p q Hp Hq. rewrite (Hret p Hp), (Hret q Hq). reflexivity.
  - intros i j p e Hi Hj.
    destruct (Nat.lt_ge_cases i n) as [Hlt | Hge].
    + exfalso.
      assert (Hin : In (Ret p) (firstn n outs)).
      { apply nth_error_In with (n := i).
        rewrite nth_error_firstn.
        destruct (Nat.ltb_spec i n); [exact Hi | lia]. }
      destruct (Hfails _ Hin) as [e' He']. discriminate He'.
    + destruct (Nat.lt_ge_cases j n) as [Hjlt | Hjge]; [lia |].
      exfalso.
      assert (Hin : In (Raise e) (skipn n outs)).
      { apply nth_error_In with (n := j - n).
        rewrite nth_error_skipn. replace (n + (j - n)) with j by lia.
        exact Hj. }
      specialize (Hsame _ Hin). discriminate Hsame.
Qed.



End EngineFacts.

(* --------------------------------------------------------------------- *)
(** *** Runs on the scripted host                                         *)
(* --------------------------------------------------------------------- *)

(** On the healthy host the first call loads pipeline 2 (the VAE is object
    1) and two more calls return it again. *)
Lemma load_pipeline_single_load_witness :
  Engine._cached_pipe Scripted.healthy = None
  /\ res (Engine.load_pipeline Scripted.host None Scripted.healthy) = Ret 2
  /\ fst (fst (Engine.load_pipeline_calls Scripted.host [None; Some "cuda"]
                 (st (Engine.load_pipeline Scripted.host None
                        Scripted.healthy)))) = [Ret 2; Ret 2]
  /\ count_calls Engine.is_vae_load
       (evs (Engine.load_pipeline Scripted.host None Scripted.healthy)
        ++ snd (Engine.load_pipeline_calls Scripted.host [None; Some "cuda"]
                  (st (Engine.load_pipeline Scripted.host None
                         Scripted.healthy)))) = 1.
Proof.
  split; [reflexivity |]. split; [reflexivity |].
  pose proof (load_pipeline_single_load Scripted.host None Scripted.healthy 2
                [None; Some "cuda"] eq_refl eq_refl) as Hsingle.
  split; [exact (proj1 Hsingle) |].
  exact (proj1 (proj2 (proj2 (proj2 (proj2 (proj2 Hsingle)))))).
Defined.



(** [generate_video("a cat")] with the computation forced to raise: the
    caller gets [UnboundLocalError], not "no result". *)
Lemma generate_video_computation_raises_witness :
  res (Engine.load_pipeline Scripted.host None Scripted.computation_fails) =
    Ret 2
  /\ res (Engine.generate_video Scripted.host "a cat"
            Scripted.computation_fails) =
       Raise (Exc "UnboundLocalError"
                  "local variable 'video' referenced before assignment")
  /\ count_logged Error
       (evs (Engine.generate_video Scripted.host "a cat"
               Scripted.computation_fails)) = 1.
Proof.
  split; [reflexivity |].
  pose proof (generate_video_computation_raises Scripted.host "a cat"
                Scripted.computation_fails 2 "RuntimeError" "out of memory"
                _ eq_refl eq_refl) as Hbug.
  split; [exact (proj1 Hbug) | exact (proj1 (proj2 (proj2 Hbug)))].
Defined.

(* ===================================================================== *)
(** ** The generation recorder                                            *)
(* ===================================================================== *)

Section RecorderFacts.
Import Storage.
Context (D : Db).

(** What [record_generation] does, by the outcome of the backend. *)
Lemma record_generation_run
    (prompt : string) (steps width height : Z) (filename : string)
    (generation_time file_size_kb : Q) (model precision : string)
    (seed : option Z) (cfg_scale : Q) (loras : option (list (Lora D)))
    (w : DbWorld D) :
  let kw := add_generation_kwargs D prompt steps width height filename
              generation_time file_size_kb model precision seed cfg_scale
              loras in
  record_generation D prompt steps width height filename generation_time
    file_size_kb model precision seed cfg_scale loras w =
  match db_add_generation D kw w with
  | (Ret id, w') => Run (Ret (Some id)) w' [Called (add_generation kw) None]
  | (Raise e, w') =>
      if isinstance_Exception e then
        Run (Ret None) w'
            [Called (add_generation kw) (Some e);
             Logged Error ("Failed to record generation to DB: "
                           ++ str_of_exc e)]
      else Run (Raise e) w' [Called (add_generation kw) (Some e)]
  end.
Proof.
  intros kw. subst kw.
  unfold record_generation, try_except_Exception, call_add_generation, bind,
    ret, log, emit.
  destruct (db_add_generation D _ w) as [[id | e] w']; simpl;
    [reflexivity |].
  destruct (isinstance_Exception e); reflexivity.
Qed.

(** C6 (recorder best-effort contract).  For all arguments: when
    [db.add_generation] returns an id, [record_generation] returns that id
    and logs no error; when it raises an instance of [Exception],
    [record_generation] does not raise, returns [None] and logs one error
    carrying the exception's text. *)
Theorem record_generation_best_effort
    (prompt : string) (steps width height : Z) (filename : string)
    (generation_time file_size_kb : Q) (model precision : string)
    (seed : option Z) (cfg_scale : Q) (loras : option (list (Lora D)))
    (w : DbWorld D) :
  let kw := add_generation_kwargs D prompt steps width height filename
              generation_time file_size_kb model precision seed cfg_scale
              loras in
  let r := record_generation D prompt steps width height filename
             generation_time file_size_kb model precision seed cfg_scale
             loras w in
  (forall id w',
      db_add_generation D kw w = (Ret id, w') ->
      res r = Ret (Some id) /\ st r = w' /\ count_logged Error (evs r) = 0)
  /\ (forall cls msg w',
         db_add_generation D kw w = (Raise (Exc cls msg), w') ->
         res r = Ret None
         /\ st r = w'
         /\ evs r = [Called (add_generation kw) (Some (Exc cls msg));
                     Logged Error ("Failed to record generation to DB: "
                                   ++ msg)]).
Proof.
  intros kw r. subst kw r. rewrite record_generation_run.
  split.
  - intros id w' Hdb. rewrite Hdb. repeat split; reflexivity.
  - intros cls msg w' Hdb. rewrite Hdb. repeat split; reflexivity.
Qed.

(** An exception outside [Exception] ([KeyboardInterrupt], [SystemExit])
    is not a persistence failure and passes through the handler. *)
Lemma record_generation_interrupt
    (prompt : string) (steps width height : Z) (filename : string)
    (generation_time file_size_kb : Q) (model precision : string)
    (seed : option Z) (cfg_scale : Q) (loras : option (list (Lora D)))
    (w w' : DbWorld D) (cls msg : string) :
  db_add_generation D
    (add_generation_kwargs D prompt steps width height filename
       generation_time file_size_kb model precision seed cfg_scale loras) w =
    (Raise (BaseExc cls msg), w') ->
  res (record_generation D prompt steps width height filename generation_time
         file_size_kb model precision seed cfg_scale loras w) =
    Raise (BaseExc cls msg).
Proof.
  intros Hdb. rewrite record_generation_run, Hdb. reflexivity.
Qed.

(** C9 (status of a recorded generation).  [record_generation] has no
    status parameter; for all arguments it calls [db.add_generation] exactly
    once, and the record it hands over has status ["succeeded"] and
    otherwise the caller's values. *)
Theorem record_generation_status_succeeded
    (prompt : string) (steps width height : Z) (filename : string)
    (generation_time file_size_kb : Q) (model precision : string)
    (seed : option Z) (cfg_scale : Q) (loras : option (list (Lora D)))
    (w : DbWorld D) :
  let r := record_generation D prompt steps width height filename
             generation_time file_size_kb model precision seed cfg_scale
             loras w in
  count_calls (fun _ => true) (evs r) = 1
  /\ forall kw exn,
      In (Called (add_generation kw) exn) (evs r) ->
      status kw = "succeeded"
      /\ kw = {| prompt := prompt; steps := steps; width := width;
                 height := height; filename := filename;
                 generation_time := generation_time;
                 file_size_kb := file_size_kb; model := model;
                 cfg_scale := cfg_scale; seed := seed;
                 status := "succeeded"; precision := precision;
                 loras := loras |}.
Proof.
  intros r. subst r. rewrite record_generation_run.
  destruct (db_add_generation D _ w) as [[id | e] w']; simpl.
  - split; [reflexivity |]. intros kw exn [Hin | []].
    injection Hin as <- _. split; reflexivity.
  - destruct (isinstance_Exception e); simpl;
      (split; [reflexivity |]);
      intros kw exn Hin;
      repeat (destruct Hin as [Hin | Hin];
              [first [discriminate Hin
                     | injection Hin as <- _; split; reflexivity] |]);
      destruct Hin.
Qed.


(** X11 (what the recorder lets through).  The only exceptions that leave
    [record_generation] are those the backend raised that are not instances
    of [Exception]; such a call logs nothing. *)
Theorem record_generation_raises_only_interrupts
    (prompt : string) (steps width height : Z) (filename : string)
    (generation_time file_size_kb : Q) (model precision : string)
    (seed : option Z) (cfg_scale : Q) (loras : option (list (Lora D)))
    (w : DbWorld D) (e : py_exc) :
  let kw := add_generation_kwargs D prompt steps width height filename
              generation_time file_size_kb model precision seed cfg_scale
              loras in
  let r := record_generation D prompt steps width height filename
             generation_time file_size_kb model precision seed cfg_scale
             loras w in
  res r = Raise e ->
  isinstance_Exception e = false
  /\ fst (db_add_generation D kw w) = Raise e
  /\ count_logged Error (evs r) = 0.
Proof.
  intros kw r. subst kw r. rewrite record_generation_run.
  destruct (db_add_generation D _ w) as [[id | e'] w']; simpl;
    [discriminate |].
  destruct (isinstance_Exception e') eqn:Hkind; simpl; [discriminate |].
  intros Hres. injection Hres as <-. repeat split. exact Hkind.
Qed.

End RecorderFacts.

(** A healthy database stores the row and returns id 1; a locked one makes
    the recorder return [None] without raising. *)
Lemma record_generation_best_effort_witness :
  res (Storage.record_generation Scripted.db "a cat" 30 720 1280 "a_cat.mp4"
         (12 # 1) (2048 # 1) "Wan2.2-T2V-A14B" "df11" (Some 7%Z) (0 # 1) None
         {| Scripted.rows := []; Scripted.locked := false |}) =
    Ret (Some 1%Z)
  /\ res (Storage.record_generation Scripted.db "a cat" 30 720 1280
            "a_cat.mp4" (12 # 1) (2048 # 1) "Wan2.2-T2V-A14B" "df11"
            (Some 7%Z) (0 # 1) None
            {| Scripted.rows := []; Scripted.locked := true |}) = Ret None.
Proof.
  split.
  - exact (proj1 (proj1 (record_generation_best_effort Scripted.db "a cat" 30
                           720 1280 "a_cat.mp4" (12 # 1) (2048 # 1)
                           "Wan2.2-T2V-A14B" "df11" (Some 7%Z) (0 # 1) None
                           {| Scripted.rows := []; Scripted.locked := false |})
                        1%Z _ eq_refl)).
  - exact (proj1 (proj2 (record_generation_best_effort Scripted.db "a cat" 30
                           720 1280 "a_cat.mp4" (12 # 1) (2048 # 1)
                           "Wan2.2-T2V-A14B" "df11" (Some 7%Z) (0 # 1) None
                           {| Scripted.rows := []; Scripted.locked := true |})
                        "OperationalError" "database is locked" _ eq_refl)).
Defined.

(** The row stored for ["a cat"] has status ["succeeded"]. *)
Lemma record_generation_status_succeeded_witness :
  In (Called (Storage.add_generation
                (Storage.add_generation_kwargs Scripted.db "a cat" 30 720 1280
                   "a_cat.mp4" (12 # 1) (2048 # 1) "Wan2.2-T2V-A14B" "df11"
                   (Some 7%Z) (0 # 1) None)) None)
     (evs (Storage.record_generation Scripted.db "a cat" 30 720 1280
             "a_cat.mp4" (12 # 1) (2048 # 1) "Wan2.2-T2V-A14B" "df11"
             (Some 7%Z) (0 # 1) None
             {| Scripted.rows := []; Scripted.locked := false |}))
  /\ Storage.status
       (Storage.add_generation_kwargs Scripted.db "a cat" 30 720 1280
          "a_cat.mp4" (12 # 1) (2048 # 1) "Wan2.2-T2V-A14B" "df11"
          (Some 7%Z) (0 # 1) None) = "succeeded".
Proof.
  assert (Hin : In (Called (Storage.add_generation
                (Storage.add_generation_kwargs Scripted.db "a cat" 30 720 1280
                   "a_cat.mp4" (12 # 1) (2048 # 1) "Wan2.2-T2V-A14B" "df11"
                   (Some 7%Z) (0 # 1) None)) None)
     (evs (Storage.record_generation Scripted.db "a cat" 30 720 1280
             "a_cat.mp4" (12 # 1) (2048 # 1) "Wan2.2-T2V-A14B" "df11"
             (Some 7%Z) (0 # 1) None
             {| Scripted.rows := []; Scripted.locked := false |}))).
  { left. reflexivity. }
  split; [exact Hin |].
  exact (proj1 (proj2 (record_generation_status_succeeded Scripted.db "a cat"
                         30 720 1280 "a_cat.mp4" (12 # 1) (2048 # 1)
                         "Wan2.2-T2V-A14B" "df11" (Some 7%Z) (0 # 1) None
                         {| Scripted.rows := []; Scripted.locked := false |})
                      _ _ Hin)).
Defined.

(* ===================================================================== *)
(** ** The prompt sanitiser                                               *)
(* ===================================================================== *)

Section SanitizeFacts.
Import Storage.
Variable isalnum : N -> bool.

Lemma keeps_true (c : N) :
  keeps isalnum c = true <-> isalnum c = true \/ c = 45%N \/ c = 95%N.
Proof.
  unfold keeps, char_in. simpl.
  rewrite !orb_true_iff, !N.eqb_eq. intuition discriminate.
Qed.

(** A slice with a non-negative stop is a prefix of that length. *)
Lemma slice_to_nonneg {A} (s : list A) (stop : Z) :
  (0 <= stop)%Z -> slice_to s stop = firstn (Z.to_nat stop) s.
Proof.
  intros Hstop. unfold slice_to.
  destruct (Z.leb_spec 0 stop); [reflexivity | lia].
Qed.

(** A slice with a negative stop drops that many elements from the end. *)
Lemma slice_to_neg {A} (s : list A) (stop : Z) :
  (stop < 0)%Z ->
  slice_to s stop = firstn (List.length s - Z.to_nat (- stop)) s.
Proof.
  intros Hstop. unfold slice_to.
  destruct (Z.leb_spec 0 stop); [lia |].
  f_equal. lia.
Qed.

(** C10 (sanitised prompt), as the code has it.  For every prompt and
    every [max_len] the result is non-empty and is either the characters of
    the slice [prompt[:max_len]] that are alphanumeric, ['-'] or ['_'], in
    order, or ["image"] when there are none.  For [max_len >= 0] that slice
    is the first [max_len] characters, so the kept characters number at
    most [max_len]; for [max_len < 0] it is the prompt without its last
    [-max_len] characters. *)
Theorem sanitize_prompt_spec (prompt : str) (max_len : Z) :
  let kept := filter (keeps isalnum) (slice_to prompt max_len) in
  let out := sanitize_prompt isalnum prompt max_len in
  out <> []
  /\ (kept <> [] /\ out = kept \/ kept = [] /\ out = lit "image")
  /\ (forall c, In c kept -> isalnum c = true \/ c = 45%N \/ c = 95%N)
  /\ ((0 <= max_len)%Z ->
      kept = filter (keeps isalnum) (firstn (Z.to_nat max_len) prompt)
      /\ (Z.of_nat (List.length kept) <= max_len)%Z)
  /\ ((max_len < 0)%Z ->
      kept = filter (keeps isalnum)
               (firstn (List.length prompt - Z.to_nat (- max_len)) prompt)).
Proof.
  intros kept out. subst kept out. unfold sanitize_prompt.
  split; [| split; [| split; [| split]]].
  - destruct (filter _ _); discriminate.
  - destruct (filter _ _) as [| c rest].
    + right. split; reflexivity.
    + left. split; [discriminate | reflexivity].
  - intros c Hin. apply filter_In in Hin. apply keeps_true, Hin.
  - intros Hpos. rewrite (slice_to_nonneg prompt max_len Hpos).
    split; [reflexivity |].
    pose proof (filter_length_le (keeps isalnum)
                  (firstn (Z.to_nat max_len) prompt)) as Hf.
    pose proof (firstn_le_length (Z.to_nat max_len) prompt) as Hn.
    lia.
  - intros Hneg. rewrite (slice_to_neg prompt max_len Hneg). reflexivity.
Qed.


(* ------------------------------------------------------------------- *)
(** *** Further facts about the sanitiser                               *)
(* ------------------------------------------------------------------- *)

Lemma filter_keeps_all (l : str) :
  Forall (fun c => keeps isalnum c = true) l ->
  filter (keeps isalnum) l = l.
Proof.
  induction 1 as [| c l Hc _ IH]; simpl; [reflexivity |].
  rewrite Hc, IH. reflexivity.
Qed.

(** On a non-empty clean string that fits, the sanitiser is the
    identity. *)
Lemma sanitize_prompt_fixed (l : str) (max_len : Z) :
  l <> [] ->
  Forall (fun c => keeps isalnum c = true) l ->
  (Z.of_nat (List.length l) <= max_len)%Z ->
  sanitize_prompt isalnum l max_len = l.
Proof.
  intros Hne Hclean Hlen. unfold sanitize_prompt.
  rewrite slice_to_nonneg by lia.
  rewrite firstn_all2 by lia.
  rewrite (filter_keeps_all l Hclean).
  destruct l; [contradiction | reflexivity].
Qed.

(** The result is the kept characters, which are clean and, for a
    non-negative [max_len], at most [max_len]; or it is ["image"]. *)
Lemma sanitize_prompt_cases (prompt : str) (max_len : Z) :
  let out := sanitize_prompt isalnum prompt max_len in
  (out <> []
   /\ Forall (fun c => keeps isalnum c = true) out
   /\ ((0 <= max_len)%Z -> (Z.of_nat (List.length out) <= max_len)%Z))
  \/ out = lit "image".
Proof.
  intros out. subst out. unfold sanitize_prompt.
  destruct (filter (keeps isalnum) (slice_to prompt max_len))
    as [| k rest] eqn:Ekept; [right; reflexivity | left].
  rewrite <- Ekept. split; [rewrite Ekept; discriminate |]. split.
  - rewrite Forall_forall. intros c Hin. apply filter_In in Hin. apply Hin.
  - intros Hpos. rewrite (slice_to_nonneg prompt max_len Hpos).
    pose proof (filter_length_le (keeps isalnum)
                  (firstn (Z.to_nat max_len) prompt)) as Hf.
    pose proof (firstn_le_length (Z.to_nat max_len) prompt) as Hn.
    lia.
Qed.

(** X12 (clean prompts pass through).  A non-empty prompt made only of
    alphanumeric characters, ['-'] and ['_'] and no longer than [max_len]
    is returned unchanged. *)
Theorem sanitize_prompt_clean_unchanged (prompt : str) (max_len : Z) :
  prompt <> [] ->
  (forall c, In c prompt -> isalnum c = true \/ c = 45%N \/ c = 95%N) ->
  (Z.of_nat (List.length prompt) <= max_len)%Z ->
  sanitize_prompt isalnum prompt max_len = prompt.
Proof.
  intros Hne Hclean Hlen. apply sanitize_prompt_fixed; [exact Hne | | exact Hlen].
  rewrite Forall_forall. intros c Hin. apply keeps_true, Hclean, Hin.
Qed.

(** X13 (only safe characters).  Provided the five letters of ["image"] are
    alphanumeric, every character of the result is alphanumeric, ['-'] or
    ['_'], for every prompt and every [max_len]: a character outside that
    set, such as a path separator, never reaches the result. *)
Theorem sanitize_prompt_only_safe (prompt : str) (max_len : Z) :
  Forall (fun c => isalnum c = true) (lit "image") ->
  forall c,
    In c (sanitize_prompt isalnum prompt max_len) ->
    isalnum c = true \/ c = 45%N \/ c = 95%N.
Proof.
  intros Himage c Hin.
  destruct (sanitize_prompt_cases prompt max_len) as [(_ & Hclean & _) | Heq].
  - rewrite Forall_forall in Hclean. apply keeps_true, Hclean, Hin.
  - rewrite Heq in Hin. left. rewrite Forall_forall in Himage.
    exact (Himage c Hin).
Qed.

(** X14 (length of the result).  For [max_len >= 0] the result has at least
    one character and at most [max(max_len, 5)]: at most [max_len] kept
    characters, or the five of ["image"]. *)
Theorem sanitize_prompt_length (prompt : str) (max_len : Z) :
  (0 <= max_len)%Z ->
  (1 <= Z.of_nat (List.length (sanitize_prompt isalnum prompt max_len))
   <= Z.max max_len 5)%Z.
Proof.
  intros Hpos.
  destruct (sanitize_prompt_cases prompt max_len) as [(Hne & _ & Hlen) | Heq].
  - specialize (Hlen Hpos).
    destruct (sanitize_prompt isalnum prompt max_len); [contradiction |].
    simpl in *. lia.
  - rewrite Heq. simpl. lia.
Qed.

(** X15 (truncation).  For [max_len >= 0], what follows the first [max_len]
    characters of the prompt has no influence on the result. *)
Theorem sanitize_prompt_ignores_tail (prompt tail : str) (max_len : Z) :
  (0 <= max_len)%Z ->
  (max_len <= Z.of_nat (List.length prompt))%Z ->
  sanitize_prompt isalnum (prompt ++ tail) max_len =
    sanitize_prompt isalnum prompt max_len.
Proof.
  intros Hpos Hlen. unfold sanitize_prompt.
  rewrite !slice_to_nonneg by exact Hpos.
  rewrite firstn_app.
  replace (Z.to_nat max_len - List.length prompt) with 0 by lia.
  simpl. rewrite app_nil_r. reflexivity.
Qed.

(** X16 (the fallback).  An empty prompt, a [max_len] of zero and a negative
    [max_len] that reaches past the start of the prompt all give
    ["image"]. *)
Theorem sanitize_prompt_fallback (prompt : str) (max_len : Z) :
  prompt = [] \/ max_len = 0%Z
  \/ (max_len <= - Z.of_nat (List.length prompt))%Z ->
  sanitize_prompt isalnum prompt max_len = lit "image".
Proof.
  intros Hedge. unfold sanitize_prompt.
  assert (Hslice : slice_to prompt max_len = []).
  { destruct Hedge as [-> | [-> | Hneg]].
    - unfold slice_to. destruct (0 <=? max_len)%Z; apply firstn_nil.
    - reflexivity.
    - destruct (Z.leb_spec 0 max_len) as [Hpos | Hlt].
      + rewrite slice_to_nonneg by exact Hpos.
        destruct prompt; simpl in *; [apply firstn_nil |]. lia.
      + unfold slice_to. destruct (Z.leb_spec 0 max_len); [lia |].
        replace (Z.to_nat (Z.of_nat (List.length prompt) + max_len))
          with 0 by lia.
        reflexivity. }
  rewrite Hslice. reflexivity.
Qed.

(** X17 (idempotence).  Provided the letters of ["image"] are alphanumeric
    and [max_len >= 5], sanitising a sanitised prompt changes nothing. *)
Theorem sanitize_prompt_idempotent (prompt : str) (max_len : Z) :
  Forall (fun c => isalnum c = true) (lit "image") ->
  (5 <= max_len)%Z ->
  sanitize_prompt isalnum (sanitize_prompt isalnum prompt max_len) max_len =
    sanitize_prompt isalnum prompt max_len.
Proof.
  intros Himage Hlen.
  destruct (sanitize_prompt_cases prompt max_len)
    as [(Hne & Hclean & Hfit) | Heq].
  - apply sanitize_prompt_fixed; [exact Hne | exact Hclean |].
    apply Hfit. lia.
  - rewrite Heq. apply sanitize_prompt_fixed; [discriminate | | simpl; lia].
    rewrite Forall_forall in *. intros c Hin.
    apply keeps_true. left. exact (Himage c Hin).
Qed.

End SanitizeFacts.

(** With the default [max_len] the prompt ["a cat!"] becomes ["acat"]. *)
Lemma sanitize_prompt_spec_witness :
  (0 <= 30)%Z
  /\ Storage.sanitize_prompt Scripted.ascii_isalnum (Storage.lit "a cat!") 30
     = Storage.lit "acat"
  /\ (Z.of_nat (List.length
                  (filter (Storage.keeps Scripted.ascii_isalnum)
                     (Storage.slice_to (Storage.lit "a cat!") 30))) <= 30)%Z.
Proof.
  split; [lia |]. split; [reflexivity |].
  exact (proj2 (proj1 (proj2 (proj2 (proj2
           (sanitize_prompt_spec Scripted.ascii_isalnum
              (Storage.lit "a cat!") 30)))) ltac:(lia))).
Defined.

(** C10 as stated fails for a negative [max_len]: [sanitize_prompt("abc",
    -1)] is ["ab"], which is neither the filtered first [max_len]
    characters (there are none, and its length exceeds [max_len]) nor
    ["image"]. *)
Lemma sanitize_prompt_negative_max_len :
  Storage.sanitize_prompt Scripted.ascii_isalnum (Storage.lit "abc") (-1) =
    Storage.lit "ab"
  /\ ~ (Storage.sanitize_prompt Scripted.ascii_isalnum (Storage.lit "abc") (-1)
        = filter (Storage.keeps Scripted.ascii_isalnum)
            (firstn (Z.to_nat (-1)) (Storage.lit "abc"))
        /\ (Z.of_nat (List.length
                        (Storage.sanitize_prompt Scripted.ascii_isalnum
                           (Storage.lit "abc") (-1))) <= -1)%Z
        \/ filter (Storage.keeps Scripted.ascii_isalnum)
             (firstn (Z.to_nat (-1)) (Storage.lit "abc")) = []
           /\ Storage.sanitize_prompt Scripted.ascii_isalnum
                (Storage.lit "abc") (-1) = Storage.lit "image").
Proof.
  split; [reflexivity |].
  intros [[Heq _] | [_ Heq]]; vm_compute in Heq; discriminate Heq.
Qed.

(* ===================================================================== *)
(** ** The model recommendation                                           *)
(* ===================================================================== *)

Section CatalogFacts.
Import Hardware.
Variable catalog : list CatalogEntry.
Variable available_memory : DeviceProfile -> Q.

Lemma best_None (l : list CatalogEntry) : best l = None -> l = [].
Proof.
  destruct l as [| e t]; [reflexivity |]. simpl.
  destruct (best t) as [[j c] |]; [| discriminate].
  destruct (Nat.leb c (capability e)); discriminate.
Qed.

(** [best] names an entry of the list whose capability no entry exceeds
    and no earlier entry reaches. *)
Lemma best_spec (l : list CatalogEntry) :
  forall i c,
    best l = Some (i, c) ->
    exists e,
      nth_error l i = Some e
      /\ capability e = c
      /\ (forall j e', nth_error l j = Some e' -> capability e' <= c)
      /\ (forall j e', j < i -> nth_error l j = Some e' -> capability e' < c).
Proof.
  induction l as [| e t IH]; intros i c Hbest; [discriminate Hbest |].
  simpl in Hbest. destruct (best t) as [[j c'] |] eqn:Et.
  - destruct (IH j c' eq_refl) as (e0 & Hnth & Hcap & Hmax & Hfirst).
    destruct (Nat.leb_spec c' (capability e)) as [Hle | Hlt];
      injection Hbest as <- <-.
    + exists e. repeat split; [| intros j' e' Hlt'; lia].
      intros [| k] e' Hk; simpl in Hk.
      * injection Hk as <-. lia.
      * specialize (Hmax k e' Hk). lia.
    + exists e0. repeat split; [exact Hnth | exact Hcap | |].
      * intros [| k] e' Hk; simpl in Hk.
        -- injection Hk as <-. lia.
        -- exact (Hmax k e' Hk).
      * intros [| k] e' Hlt' Hk; simpl in Hk.
        -- injection Hk as <-. lia.
        -- apply (Hfirst k e'); [lia | exact Hk].
  - injection Hbest as <- <-. apply best_None in Et. subst t.
    exists e. repeat split; [| intros j' e' Hlt'; lia].
    intros [| [| k]] e' Hk; simpl in Hk; try discriminate Hk.
    injection Hk as <-. lia.
Qed.

Lemma mark_nth (l : list CatalogEntry) :
  forall i b n,
    nth_error (mark i b l) n =
      option_map
        (fun e => {| id := entry_id e;
                     hf_model_id := entry_hf_model_id e;
                     recommended := match b with
                                    | Some k => Nat.eqb (i + n) k
                                    | None => false
                                    end |})
        (nth_error l n).
Proof.
  induction l as [| e t IH]; intros i b [| n]; simpl; try reflexivity.
  - rewrite Nat.add_0_r. reflexivity.
  - rewrite IH. rewrite <- plus_n_Sm. reflexivity.
Qed.

Lemma mark_ids (l : list CatalogEntry) :
  forall i b,
    map id (mark i b l) = map entry_id l
    /\ map hf_model_id (mark i b l) = map entry_hf_model_id l.
Proof.
  induction l as [| e t IH]; intros i b; simpl; [split; reflexivity |].
  destruct (IH (S i) b) as [Hid Hhf]. rewrite Hid, Hhf. split; reflexivity.
Qed.

Lemma mark_count (l : list CatalogEntry) :
  forall i k,
    count_recommended (mark i (Some k) l) =
      if Nat.leb i k && Nat.ltb k (i + List.length l) then 1 else 0.
Proof.
  unfold count_recommended.
  induction l as [| e t IH]; intros i k.
  - cbn [mark filter List.length].
    destruct (Nat.leb_spec i k), (Nat.ltb_spec k (i + 0)); simpl;
      first [reflexivity | lia].
  - cbn [mark filter List.length recommended].
    destruct (Nat.eqb_spec i k) as [-> | Hne]; cbn [List.length];
      rewrite IH;
      repeat match goal with
             | |- context [Nat.leb ?a ?b] => destruct (Nat.leb_spec a b)
             | |- context [Nat.ltb ?a ?b] => destruct (Nat.ltb_spec a b)
             end; cbn [andb]; first [reflexivity | lia].
Qed.

Lemma filter_none {A} (f : A -> bool) (l : list A) :
  (forall x, In x l -> f x = false) -> filter f l = [].
Proof.
  induction l as [| x t IH]; intros Hnone; [reflexivity |].
  simpl. rewrite (Hnone x (or_introl eq_refl)).
  apply IH. intros y Hin. apply Hnone. right. exact Hin.
Qed.

(** C7 (model recommendation).  [recommend_models] is a function of the
    catalog and the profile: its descriptors are the fitting entries in
    catalog order.  When no entry fits it is empty and nothing is marked.
    When an entry fits exactly one descriptor is marked, and it is that of a
    fitting entry whose capability no fitting entry exceeds and no fitting
    entry declared earlier reaches. *)
Theorem recommend_models_spec (profile : DeviceProfile) :
  let fitting := filter (fits available_memory profile) catalog in
  let out := recommend_models catalog available_memory profile in
  map id out = map entry_id fitting
  /\ map hf_model_id out = map entry_hf_model_id fitting
  /\ ((forall e, In e catalog -> fits available_memory profile e = false) ->
      out = [] /\ count_recommended out = 0)
  /\ ((exists e, In e catalog /\ fits available_memory profile e = true) ->
      count_recommended out = 1
      /\ exists i e,
          nth_error fitting i = Some e
          /\ nth_error out i =
               Some {| id := entry_id e;
                       hf_model_id := entry_hf_model_id e;
                       recommended := true |}
          /\ (forall j d, nth_error out j = Some d ->
                          recommended d = true -> j = i)
          /\ (forall j e', nth_error fitting j = Some e' ->
                           capability e' <= capability e)
          /\ (forall j e', j < i -> nth_error fitting j = Some e' ->
                           capability e' < capability e)).
Proof.
  intros fitting out. subst out. unfold recommend_models. fold fitting.
  destruct (mark_ids fitting 0 (option_map fst (best fitting))) as [Hid Hhf].
  split; [exact Hid |]. split; [exact Hhf |]. split.
  - intros Hnone.
    assert (Hnil : fitting = []).
    { subst fitting. apply filter_none. exact Hnone. }
    rewrite Hnil. split; reflexivity.
  - intros (e0 & Hin0 & Hfit0).
    assert (Hin : In e0 fitting) by (apply filter_In; split; assumption).
    destruct (best fitting) as [[i c] |] eqn:Ebest;
      [| apply best_None in Ebest; rewrite Ebest in Hin; destruct Hin].
    destruct (best_spec fitting i c Ebest)
      as (e & Hnth & Hcap & Hmax & Hfirst).
    simpl. subst c.
    assert (Hi : i < List.length fitting)
      by (apply nth_error_Some; rewrite Hnth; discriminate).
    split.
    + rewrite mark_count. simpl.
      destruct (Nat.ltb_spec i (List.length fitting)); [reflexivity | lia].
    + exists i, e. split; [exact Hnth |]. split.
      * rewrite mark_nth, Hnth. simpl. rewrite Nat.eqb_refl. reflexivity.
      * split; [| split; [exact Hmax | exact Hfirst]].
        intros j d Hj Hrec. rewrite mark_nth in Hj.
        destruct (nth_error fitting j) as [e' |]; [| discriminate Hj].
        simpl in Hj. injection Hj as <-. simpl in Hrec.
        apply Nat.eqb_eq in Hrec. exact Hrec.
Qed.

End CatalogFacts.

(** The scenario of the spec: with 8 GB and entries of 4 GB and 16 GB only
    the 4 GB entry is returned, and it is marked. *)
Lemma recommend_models_spec_witness :
  (exists e, In e [Scripted.small_entry; Scripted.large_entry]
             /\ Hardware.fits Scripted.ram_budget Scripted.cpu_8gb e = true)
  /\ Hardware.recommend_models [Scripted.small_entry; Scripted.large_entry]
       Scripted.ram_budget Scripted.cpu_8gb =
     [{| Hardware.id := "small";
         Hardware.hf_model_id := "org/small-4gb";
         Hardware.recommended := true |}]
  /\ Hardware.count_recommended
       (Hardware.recommend_models [Scripted.small_entry; Scripted.large_entry]
          Scripted.ram_budget Scripted.cpu_8gb) = 1.
Proof.
  assert (Hfits : exists e,
             In e [Scripted.small_entry; Scripted.large_entry]
             /\ Hardware.fits Scripted.ram_budget Scripted.cpu_8gb e = true).
  { exists Scripted.small_entry. split; [left; reflexivity | reflexivity]. }
  split; [exact Hfits |]. split; [reflexivity |].
  exact (proj1 (proj2 (proj2 (proj2
           (recommend_models_spec [Scripted.small_entry; Scripted.large_entry]
              Scripted.ram_budget Scripted.cpu_8gb))) Hfits)).
Defined.

(* ===================================================================== *)
(** ** The [models] command                                               *)
(* ===================================================================== *)

Section CliFacts.
Import Cli.
Context (H : Host).

Lemma print_models_run (ms : list ModelEntry) (w : World H) :
  res (print_models H ms w) = Ret tt
  /\ st (print_models H ms w) = w
  /\ printed (evs (print_models H ms w)) = map model_line ms
  /\ count_logged Warning (evs (print_models H ms w)) = 0.
Proof.
  induction ms as [| m rest IH]; simpl.
  - repeat split; reflexivity.
  - destruct IH as (Hres & Hst & Hprinted & Hwarn).
    unfold bind, py_print, emit. simpl.
    destruct (print_models H rest w) as [r w' l]. simpl in *.
    subst r w'. unfold count_logged in *. simpl.
    rewrite Hprinted, Hwarn. repeat split; reflexivity.
Qed.

(** X18 (the [models] listing).  When [get_available_models] returns,
    [run_models] prints the device line, the RAM and VRAM lines that are
    present, the heading and then one line per model in the order of the
    response; it logs its warning exactly when the list of models is empty,
    and then prints no model line. *)
Theorem run_models_listing (w w' : World H) (resp : ModelsResponse) :
  host_get_available_models H w = (Ret resp, w') ->
  let r := run_models H w in
  res r = Ret tt
  /\ st r = w'
  /\ printed (evs r) =
       [("Device: " ++ upper H (device resp))%string]
       ++ match ram_gb resp with
          | Some ram => [("RAM: " ++ format_1f H ram ++ " GB")%string]
          | None => []
          end
       ++ match vram_gb resp with
          | Some vram => [("VRAM: " ++ format_1f H vram ++ " GB")%string]
          | None => []
          end
       ++ [String (ascii_of_nat 10) "Available Models:"]
       ++ map model_line (models resp)
  /\ count_logged Warning (evs r) =
       match models resp with [] => 1 | _ :: _ => 0 end.
Proof.
  intros Hget r. subst r.
  unfold run_models, call_get_available_models, bind, py_print, log_warn,
    log, emit, ret.
  rewrite Hget.
  destruct (ram_gb resp) as [ram |], (vram_gb resp) as [vram |],
    (models resp) as [| m rest]; cbn -[print_models printed];
    try (repeat split; reflexivity);
    destruct (print_models_run (m :: rest) w')
      as (Hres & Hst & Hprinted & Hwarn);
    destruct (print_models H (m :: rest) w') as [r0 w0 l0];
    cbn -[print_models] in *;
    subst r0 w0; unfold count_logged in *; cbn -[print_models];
    rewrite ?Hprinted, ?Hwarn; repeat split; reflexivity.
Qed.

(** The [models] command when the probe fails.  When
    [get_available_models] raises, [run_models] raises the same exception
    and has printed and logged nothing. *)
Theorem run_models_probe_raises (w w' : World H) (e : py_exc) :
  host_get_available_models H w = (Raise e, w') ->
  res (run_models H w) = Raise e
  /\ printed (evs (run_models H w)) = []
  /\ count_logged Warning (evs (run_models H w)) = 0.
Proof.
  intros Hget.
  unfold run_models, call_get_available_models, bind. rewrite Hget.
  repeat split; reflexivity.
Qed.

End CliFacts.

(* ===================================================================== *)
(** ** Further runs on the test doubles                                   *)
(* ===================================================================== *)

Lemma generate_video_returns_first_frames_witness :
  res (Engine.load_pipeline Scripted.host None Scripted.healthy) = Ret 2
  /\ res (Engine.generate_video Scripted.host "a cat" Scripted.healthy) =
       Ret (Some [2; 150]).
Proof.
  split; [reflexivity |].
  exact (proj1 (generate_video_returns_first_frames Scripted.host "a cat"
                  Scripted.healthy 2 [2; 150] [] _ eq_refl eq_refl)).
Defined.

Lemma generate_video_return_value_witness :
  res (Engine.generate_video Scripted.host "a cat" Scripted.healthy) =
    Ret (Some [2; 150])
  /\ exists p v rest w',
      res (Engine.load_pipeline Scripted.host None Scripted.healthy) = Ret p
      /\ Engine.host_pipe_call Scripted.host p (Engine.gen_args "a cat")
           (Engine.world
              (st (Engine.load_pipeline Scripted.host None Scripted.healthy)))
         = (Ret (v :: rest), w')
      /\ Some [2; 150] = Some v.
Proof.
  split; [reflexivity |].
  exact (generate_video_return_value Scripted.host "a cat" Scripted.healthy
           (Some [2; 150]) eq_refl).
Defined.

Lemma generate_video_load_failure_witness :
  res (Engine.load_pipeline Scripted.host None Scripted.vae_missing) =
    Raise (Exc "OSError" "model files not found in local cache")
  /\ res (Engine.generate_video Scripted.host "a cat" Scripted.vae_missing) =
       Raise (Exc "UnboundLocalError"
                  "local variable 'video' referenced before assignment")
  /\ count_calls Engine.is_pipe_call
       (evs (Engine.generate_video Scripted.host "a cat"
               Scripted.vae_missing)) = 0.
Proof.
  split; [reflexivity |].
  pose proof (generate_video_load_failure Scripted.host "a cat"
                Scripted.vae_missing "OSError"
                "model files not found in local cache" eq_refl) as Hfail.
  split; [exact (proj1 Hfail) | exact (proj1 (proj2 (proj2 Hfail)))].
Defined.

Lemma generate_video_interrupt_witness :
  res (Engine.load_pipeline Scripted.host None Scripted.interrupted) = Ret 2
  /\ res (Engine.generate_video Scripted.host "a cat" Scripted.interrupted) =
       Raise (BaseExc "KeyboardInterrupt" "")
  /\ count_calls Engine.is_gc_collect
       (evs (Engine.generate_video Scripted.host "a cat"
               Scripted.interrupted)) = 1.
Proof.
  split; [reflexivity |].
  pose proof (generate_video_interrupt Scripted.host "a cat"
                Scripted.interrupted 2 "KeyboardInterrupt" "" _ eq_refl
                eq_refl) as Hint.
  split; [exact (proj1 Hint) | exact (proj2 (proj2 Hint))].
Defined.

Lemma cached_pipe_never_evicted_witness :
  Engine._cached_pipe
    (st (Engine.load_pipeline Scripted.host None Scripted.healthy)) = Some 2
  /\ Engine._cached_pipe
       (st (Engine.generate_video Scripted.host "a cat"
              (st (Engine.load_pipeline Scripted.host None
                     Scripted.healthy)))) = Some 2.
Proof.
  split; [reflexivity |].
  exact (proj1 (proj2 (cached_pipe_never_evicted Scripted.host
                         (st (Engine.load_pipeline Scripted.host None
                                Scripted.healthy))
                         2 None "a cat" eq_refl))).
Defined.

Lemma generate_video_twice_reuses_pipeline_witness :
  res (Engine.load_pipeline Scripted.host None Scripted.healthy) = Ret 2
  /\ count_calls Engine.is_load_step
       (evs (Engine.generate_video Scripted.host "a dog"
               (st (Engine.generate_video Scripted.host "a cat"
                      Scripted.healthy)))) = 0.
Proof.
  split; [reflexivity |].
  exact (proj1 (proj2 (generate_video_twice_reuses_pipeline Scripted.host
                         "a cat" "a dog" Scripted.healthy 2 eq_refl))).
Defined.

Lemma load_pipeline_calls_agree_witness :
  Engine._cached_pipe Scripted.vae_missing = None
  /\ fst (fst (Engine.load_pipeline_calls Scripted.host
                 [None; None; Some "cuda"] Scripted.vae_missing)) =
       [Raise (Exc "OSError" "model files not found in local cache");
        Ret 2; Ret 2]
  /\ forall p q,
      In (Ret p)
         (fst (fst (Engine.load_pipeline_calls Scripted.host
                      [None; None; Some "cuda"] Scripted.vae_missing))) ->
      In (Ret q)
         (fst (fst (Engine.load_pipeline_calls Scripted.host
                      [None; None; Some "cuda"] Scripted.vae_missing))) ->
      p = q.
Proof.
  split; [reflexivity |]. split; [reflexivity |].
  exact (proj1 (load_pipeline_calls_agree Scripted.host
                  [None; None; Some "cuda"] Scripted.vae_missing eq_refl)).
Defined.

Lemma record_generation_raises_only_interrupts_witness :
  res (Storage.record_generation Scripted.db_interrupted "a cat" 30 720 1280
         "a_cat.mp4" (12 # 1) (2048 # 1) "Wan2.2-T2V-A14B" "df11" None
         (0 # 1) None tt) = Raise (BaseExc "KeyboardInterrupt" "")
  /\ isinstance_Exception (BaseExc "KeyboardInterrupt" "") = false.
Proof.
  split; [reflexivity |].
  exact (proj1 (record_generation_raises_only_interrupts
                  Scripted.db_interrupted "a cat" 30 720 1280 "a_cat.mp4"
                  (12 # 1) (2048 # 1) "Wan2.2-T2V-A14B" "df11" None (0 # 1)
                  None tt (BaseExc "KeyboardInterrupt" "") eq_refl)).
Defined.

Lemma ascii_isalnum_image :
  Forall (fun c => Scripted.ascii_isalnum c = true) (Storage.lit "image").
Proof. repeat constructor. Defined.

Lemma sanitize_prompt_clean_unchanged_witness :
  Storage.lit "a_cat-1" <> []
  /\ (Z.of_nat (List.length (Storage.lit "a_cat-1")) <= 30)%Z
  /\ Storage.sanitize_prompt Scripted.ascii_isalnum (Storage.lit "a_cat-1") 30
     = Storage.lit "a_cat-1".
Proof.
  split; [discriminate |]. split; [simpl; lia |].
  apply (sanitize_prompt_clean_unchanged Scripted.ascii_isalnum
           (Storage.lit "a_cat-1") 30).
  - discriminate.
  - intros c Hin. simpl in Hin.
    repeat (destruct Hin as [<- | Hin]; [vm_compute; tauto |]).
    destruct Hin.
  - simpl. lia.
Defined.

Lemma sanitize_prompt_only_safe_witness :
  In 98%N (Storage.sanitize_prompt Scripted.ascii_isalnum
             (Storage.lit "a/b c.mp4") 30)
  /\ ~ In 47%N (Storage.sanitize_prompt Scripted.ascii_isalnum
                  (Storage.lit "a/b c.mp4") 30)
  /\ (Scripted.ascii_isalnum 98 = true \/ 98%N = 45%N \/ 98%N = 95%N).
Proof.
  assert (Hin : In 98%N (Storage.sanitize_prompt Scripted.ascii_isalnum
                           (Storage.lit "a/b c.mp4") 30)).
  { right. left. reflexivity. }
  split; [exact Hin |]. split.
  - intros Hbad.
    destruct (sanitize_prompt_only_safe Scripted.ascii_isalnum
                (Storage.lit "a/b c.mp4") 30 ascii_isalnum_image 47%N Hbad)
      as [Ha | [Hd | Hu]]; discriminate.
  - exact (sanitize_prompt_only_safe Scripted.ascii_isalnum
             (Storage.lit "a/b c.mp4") 30 ascii_isalnum_image 98%N Hin).
Defined.

Lemma sanitize_prompt_length_witness :
  (0 <= 3)%Z
  /\ (1 <= Z.of_nat (List.length
                       (Storage.sanitize_prompt Scripted.ascii_isalnum
                          (Storage.lit "!!!") 3)) <= Z.max 3 5)%Z.
Proof.
  split; [lia |].
  apply (sanitize_prompt_length Scripted.ascii_isalnum (Storage.lit "!!!") 3).
  lia.
Defined.

Lemma sanitize_prompt_ignores_tail_witness :
  (0 <= 3)%Z
  /\ (3 <= Z.of_nat (List.length (Storage.lit "cats")))%Z
  /\ Storage.sanitize_prompt Scripted.ascii_isalnum
       (Storage.lit "cats" ++ Storage.lit " and dogs") 3 =
     Storage.sanitize_prompt Scripted.ascii_isalnum (Storage.lit "cats") 3.
Proof.
  split; [lia |]. split; [simpl; lia |].
  apply (sanitize_prompt_ignores_tail Scripted.ascii_isalnum
           (Storage.lit "cats") (Storage.lit " and dogs") 3);
    simpl; lia.
Defined.

Lemma sanitize_prompt_fallback_witness :
  (-5 <= - Z.of_nat (List.length (Storage.lit "cat")))%Z
  /\ Storage.sanitize_prompt Scripted.ascii_isalnum (Storage.lit "cat") (-5)
     = Storage.lit "image".
Proof.
  split; [simpl; lia |].
  apply (sanitize_prompt_fallback Scripted.ascii_isalnum (Storage.lit "cat")
           (-5)).
  right. right. simpl. lia.
Defined.

Lemma sanitize_prompt_idempotent_witness :
  (5 <= 30)%Z
  /\ Storage.sanitize_prompt Scripted.ascii_isalnum
       (Storage.sanitize_prompt Scripted.ascii_isalnum
          (Storage.lit "a cat, sleeping") 30) 30 =
     Storage.sanitize_prompt Scripted.ascii_isalnum
       (Storage.lit "a cat, sleeping") 30.
Proof.
  split; [lia |].
  apply (sanitize_prompt_idempotent Scripted.ascii_isalnum
           (Storage.lit "a cat, sleeping") 30 ascii_isalnum_image).
  lia.
Defined.

Lemma run_models_listing_witness :
  Cli.host_get_available_models (Scripted.cli_host (Ret Scripted.two_models))
    tt = (Ret Scripted.two_models, tt)
  /\ List.length
       (Cli.printed
          (evs (Cli.run_models (Scripted.cli_host (Ret Scripted.two_models))
                  tt))) = 5
  /\ count_logged Warning
       (evs (Cli.run_models (Scripted.cli_host (Ret Scripted.two_models))
               tt)) = 0.
Proof.
  split; [reflexivity |].
  pose proof (run_models_listing (Scripted.cli_host (Ret Scripted.two_models))
                tt tt Scripted.two_models eq_refl) as Hlist.
  split.
  - rewrite (proj1 (proj2 (proj2 Hlist))). reflexivity.
  - exact (proj2 (proj2 (proj2 Hlist))).
Defined.

Lemma run_models_probe_raises_witness :
  Cli.host_get_available_models
    (Scripted.cli_host (Raise (Exc "RuntimeError" "no hardware"))) tt =
    (Raise (Exc "RuntimeError" "no hardware"), tt)
  /\ res (Cli.run_models
            (Scripted.cli_host (Raise (Exc "RuntimeError" "no hardware")))
            tt) = Raise (Exc "RuntimeError" "no hardware").
Proof.
  split; [reflexivity |].
  exact (proj1 (run_models_probe_raises
                  (Scripted.cli_host (Raise (Exc "RuntimeError" "no hardware")))
                  tt tt _ eq_refl)).
Defined.
